(** * DDSP: synthesizer controls and the model wrapper

    A shallow embedding of [ddsp/synths.py] (the [Additive] and
    [FilteredNoise] processors) and of [ddsp/training/model.py] (the
    [Model] wrapper), with the properties their specification states.

    Layout:
    - Python exceptions, results and the state-and-error monad;
    - tensor elements ([Elem]) with two instances: IEEE binary32, as
      TensorFlow computes, and exact rationals;
    - [tf]: the TensorFlow primitives the source calls;
    - [core]: the helpers of [ddsp/core.py] that [synths.py] calls;
    - [Additive], [FilteredNoise], [Model]: the source classes;
    - the theorems. *)

From Stdlib Require Import ZArith QArith Ascii String Floats.SpecFloat.
From stdpp Require Import gmap strings list fin_maps.

Set Default Proof Using "Type".
#[local] Open Scope Z_scope.
#[local] Open Scope string_scope.

(** ** Exceptions and results *)

(** The exception classes a call can end with.  The first four are the
    Python built-ins the modelled paths raise.  The last four are the
    error names of the specification (section 7). *)
Inductive exn : Type :=
| ValueError
| TypeError
| AttributeError
| KeyError
| ShapeMismatchError
| InvalidControlError
| CheckpointNotFoundError
| MisconfiguredModelError.

Inductive result (X : Type) : Type :=
| Ok (x : X)
| Err (e : exn).
Arguments Ok {X} x.
Arguments Err {X} e.

Definition rbind {X Y : Type} (r : result X) (k : X -> result Y) : result Y :=
  match r with
  | Ok x => k x
  | Err e => Err e
  end.

(** A Python call runs against an ambient state [St] (the random number
    generator of the TensorFlow runtime, the attributes of [self]) and
    either returns or raises; the state survives a raise. *)
Definition M (St X : Type) : Type := St -> result X * St.

Definition ret {St X : Type} (x : X) : M St X := fun s => (Ok x, s).

Definition raise {St X : Type} (e : exn) : M St X := fun s => (Err e, s).

Definition lift {St X : Type} (r : result X) : M St X := fun s => (r, s).

Definition bind {St X Y : Type} (m : M St X) (k : X -> M St Y) : M St Y :=
  fun s =>
    match m s with
    | (Ok x, s') => k x s'
    | (Err e, s') => (Err e, s')
    end.

Declare Scope py_scope.
Delimit Scope py_scope with py.
Notation "x <~ m ;; k" := (bind m (fun x => k))
  (at level 60, m at next level, right associativity) : py_scope.
Notation "x <~? r ;; k" := (rbind r (fun x => k))
  (at level 60, r at next level, right associativity) : py_scope.
#[local] Open Scope py_scope.

(** ** Tensor elements *)

(** The elementwise operations of a float tensor that [synths.py] and its
    helpers use: the constant zero, [+], [*], [/], [tf.greater] and the
    conversion of a Python integer. *)
Class Elem (A : Type) : Type := {
  fzero : A;
  fadd : A -> A -> A;
  fmul : A -> A -> A;
  fdiv : A -> A -> A;
  fgreater : A -> A -> bool;
  of_int : Z -> A
}.

(** IEEE 754 binary32 ([tf.float32]): 24 bits of precision, [emax = 128],
    round to nearest even. *)
Module Float32.
Definition prec : Z := 24.
Definition emax : Z := 128.

Definition greater (x y : spec_float) : bool :=
  match SFcompare x y with
  | Some Gt => true
  | _ => false
  end.

Definition of_Z (z : Z) : spec_float := binary_normalize prec emax z 0 false.

Definition is_nan (x : spec_float) : bool :=
  match x with
  | S754_nan => true
  | _ => false
  end.

End Float32.

#[export] Instance float32_elem : Elem spec_float := {
  fzero := S754_zero false;
  fadd := SFadd Float32.prec Float32.emax;
  fmul := SFmul Float32.prec Float32.emax;
  fdiv := SFdiv Float32.prec Float32.emax;
  fgreater := Float32.greater;
  of_int := Float32.of_Z
}.

(** Exact rational arithmetic: what the float computation approximates.
    A division by zero, which [Qdiv] sends to zero, has no float
    counterpart; the statements over [Q] keep away from it. *)
#[export] Instance exact_elem : Elem Q := {
  fzero := 0%Q;
  fadd := Qplus;
  fmul := Qmult;
  fdiv := Qdiv;
  fgreater := fun x y => negb (Qle_bool x y);
  of_int := inject_Z
}.

(** ** Tensors *)

(** A rank-3 tensor [batch, time, channels] is a list of batch entries,
    each a list of frames, each a list of channel values. *)
Abbreviation frame A := (list A) (only parsing).
Abbreviation tensor A := (list (list (list A))) (only parsing).

(** The frame [x[b, t, :]]. *)
Definition tframe {A : Type} (x : tensor A) (b t : nat) : option (frame A) :=
  match x !! b with
  | Some m => m !! t
  | None => None
  end.

(** The element [x[b, t, k]]. *)
Definition tget {A : Type} (x : tensor A) (b t k : nat) : option A :=
  match tframe x b t with
  | Some r => r !! k
  | None => None
  end.

(** [x] has static shape [[nb, nt, nc]]. *)
Definition has_shape {A : Type} (nb nt nc : nat) (x : tensor A) : bool :=
  (length x =? nb)%nat &&
  forallb (fun m => (length m =? nt)%nat &&
                    forallb (fun r => (length r =? nc)%nat) m) x.

(** [int(x.shape[-1])]. *)
Definition last_dim {A : Type} (x : tensor A) : nat :=
  match x with
  | (r :: _) :: _ => length r
  | _ => 0%nat
  end.

(** Apply [f] to every frame. *)
Definition map_frames {A B : Type} (f : frame A -> frame B) (x : tensor A) : tensor B :=
  map (map f) x.

(** Apply a fallible [f] to the elements of a list, left to right. *)
Fixpoint traverse {X Y : Type} (f : X -> result Y) (xs : list X) : result (list Y) :=
  match xs with
  | [] => Ok []
  | x :: xs' =>
      y <~? f x ;;
      ys <~? traverse f xs' ;;
      Ok (y :: ys)
  end.

(** Combine two lists position by position; the lengths must agree. *)
Fixpoint zip_exact {X Y V : Type} (f : X -> Y -> result V)
    (xs : list X) (ys : list Y) : result (list V) :=
  match xs, ys with
  | [], [] => Ok []
  | x :: xs', y :: ys' =>
      z <~? f x y ;;
      zs <~? zip_exact f xs' ys' ;;
      Ok (z :: zs)
  | _, _ => Err ShapeMismatchError
  end.

(** ** TensorFlow primitives *)

Module tf.
Section Ops.
Context {A : Type} `{Elem A}.

(** [tf.reduce_sum] of one frame (the last axis). *)
Definition reduce_sum (r : frame A) : A := fold_left fadd r fzero.

(** [tf.linspace(1.0, float(n), int(n))]: the values [1, 2, ..., n]. *)
Definition linspace_1 (n : nat) : list A :=
  map (fun k => of_int (Z.of_nat k)) (seq 1 n).

(** [tf.where(cond, tf.zeros_like(x), x)] at one position. *)
Definition where_zero (cond : bool) (x : A) : A :=
  if cond then fzero else x.
End Ops.
End tf.

(** ** ddsp.core *)

Module core.
Section Core.
Context {A : Type} `{Elem A}.

(** Modelled from the spec: [core.get_harmonic_frequencies] of
    [ddsp/core.py], which is not part of the sources at hand.  The
    harmonic frequency tensor is "derived as f0_hz multiplied by the
    harmonic index (1..n_harmonics) broadcast across the harmonic
    axis"; [f0_hz] is "batch x frames x 1". *)
Definition get_harmonic_frequencies (frequencies : tensor A) (n_harmonics : nat)
    : result (tensor A) :=
  traverse (traverse (fun r : frame A =>
    match r with
    | [f0] => Ok (map (fun ratio => fmul f0 ratio) (tf.linspace_1 n_harmonics))
    | _ => Err ShapeMismatchError
    end)) frequencies.

(** Modelled from the spec: [core.remove_above_nyquist] of
    [ddsp/core.py], which is not part of the sources at hand: "zero
    out (or otherwise suppress) any harmonic-distribution entry whose
    harmonic frequency exceeds half the sample rate, for every
    batch/frame/harmonic position independently"; it "fails with
    ShapeMismatchError when batch/frame dimensions of controls
    disagree". *)
Definition remove_above_nyquist (frequency_envelopes amplitude_envelopes : tensor A)
    (sample_rate : Z) : result (tensor A) :=
  let nyquist := fdiv (of_int sample_rate) (of_int 2) in
  zip_exact (zip_exact (zip_exact (fun f a =>
    Ok (tf.where_zero (fgreater f nyquist) a))))
    frequency_envelopes amplitude_envelopes.
End Core.
End core.

(** ** ddsp.synths.Additive *)

Module Additive.
Section Additive.
Context {St A : Type} `{Elem A}.

(** The attributes [__init__] stores.  [amp_scale_fn] is any callable on
    tensors or [None]; as a Python callable it runs in [M St]. *)
Record t : Type := {
  n_samples : Z;
  sample_rate : Z;
  amp_scale_fn : option (tensor A -> M St (tensor A));
  normalize_below_nyquist : bool;
  name : string
}.

(** [__init__] with its default arguments; [exp_sigmoid] stands for
    [core.exp_sigmoid]. *)
Definition default (exp_sigmoid : tensor A -> M St (tensor A)) : t :=
  {| n_samples := 64000;
     sample_rate := 16000;
     amp_scale_fn := Some exp_sigmoid;
     normalize_below_nyquist := true;
     name := "additive_synth" |}.

(** [get_controls], lines 61-67: scale the amplitudes. *)
Definition scale (self : t) (nn_out_amplitudes nn_out_harmonic_distribution : tensor A)
    : M St (tensor A * tensor A) :=
  match amp_scale_fn self with
  | Some fn =>
      amplitudes <~ fn nn_out_amplitudes ;;
      harmonic_distribution <~ fn nn_out_harmonic_distribution ;;
      ret (amplitudes, harmonic_distribution)
  | None => ret (nn_out_amplitudes, nn_out_harmonic_distribution)
  end.

(** [get_controls], lines 69-76: bandlimit the harmonic distribution. *)
Definition bandlimit (self : t) (harmonic_distribution f0_hz : tensor A)
    : result (tensor A) :=
  if normalize_below_nyquist self then
    let n_harmonics := last_dim harmonic_distribution in
    harmonic_frequencies <~? core.get_harmonic_frequencies f0_hz n_harmonics ;;
    core.remove_above_nyquist harmonic_frequencies harmonic_distribution
                              (sample_rate self)
  else Ok harmonic_distribution.

(** [get_controls], lines 78-81: divide every frame by its sum
    ([tf.reduce_sum] over the last axis with [keepdims], broadcast back). *)
Definition normalize (harmonic_distribution : tensor A) : tensor A :=
  map_frames (fun r => let total := tf.reduce_sum r in
                       map (fun x => fdiv x total) r)
             harmonic_distribution.

Definition get_controls (self : t)
    (nn_out_amplitudes nn_out_harmonic_distribution f0_hz : tensor A)
    : M St (gmap string (tensor A)) :=
  scaled <~ scale self nn_out_amplitudes nn_out_harmonic_distribution ;;
  let '(amplitudes, harmonic_distribution) := scaled in
  harmonic_distribution <~ lift (bandlimit self harmonic_distribution f0_hz) ;;
  let harmonic_distribution := normalize harmonic_distribution in
  ret (<["amplitudes" := amplitudes]>
       (<["harmonic_distribution" := harmonic_distribution]>
        (<["f0_hz" := f0_hz]> ∅))).
End Additive.
#[global] Arguments t : clear implicits.
End Additive.

(** ** ddsp.synths.FilteredNoise *)

Module FilteredNoise.
Section FilteredNoise.
Context {St A : Type}.

Record t : Type := {
  n_samples : Z;
  window_size : Z;
  amp_scale_fn : option (tensor A -> M St (tensor A));
  noise_fade_fn : option (M St (list (list A)));
  name : string
}.

Definition default (exp_sigmoid : tensor A -> M St (tensor A)) : t :=
  {| n_samples := 64000;
     window_size := 257;
     amp_scale_fn := Some exp_sigmoid;
     noise_fade_fn := None;
     name := "filtered_noise_synth" |}.

Definition get_controls (self : t) (nn_outputs : tensor A)
    : M St (gmap string (tensor A)) :=
  magnitudes <~ match amp_scale_fn self with
                | Some fn => fn nn_outputs
                | None => ret nn_outputs
                end ;;
  ret (<["magnitudes" := magnitudes]> ∅).
End FilteredNoise.
#[global] Arguments t : clear implicits.
End FilteredNoise.

(** ** ddsp.training.model *)

(** What the model wrapper asks of TensorFlow tensors: the constant
    [0.0], [+], [tf.reduce_mean], [tf.expand_dims(_, axis=0)] and the
    global step of the graph. *)
Class TensorOps (T : Type) : Type := {
  t_zero : T;
  t_add : T -> T -> T;
  t_reduce_mean : T -> T;
  t_expand_dims : T -> T;
  t_global_step : T
}.

(** [tf.train.Saver], as TensorFlow 1.x defines it. *)
Module tf_train.
Section Saver.
Context {V Session : Type}.

(** [tf.train.Saver(var_list=...)] refuses an empty list of variables
    ("No variables to save"). *)
Definition Saver (var_list : list V) : result (list V) :=
  match var_list with
  | [] => Err ValueError
  | _ :: _ => Ok var_list
  end.

(** [saver.restore(sess, save_path)] refuses a [save_path] of [None]
    ("Can't load save_path when it is None."); otherwise it reads the
    checkpoint, which [read_checkpoint] stands for. *)
Definition restore (read_checkpoint : list V -> Session -> string -> result Session)
    (saver : list V) (sess : Session) (save_path : option string) : result Session :=
  match save_path with
  | None => Err ValueError
  | Some path => read_checkpoint saver sess path
  end.
End Saver.
End tf_train.

Module Model.

(** A value stored in a Python dictionary of the forward pass: a tensor
    or a nested dictionary. *)
#[warnings="-register-all"]
Inductive value (T : Type) : Type :=
| VTensor (x : T)
| VDict (d : gmap string (value T)).
Arguments VTensor {T} x.
Arguments VDict {T} d.

(** A [tf.Variable], as far as the wrapper looks at it. *)
Record variable : Type := {
  var_name : string;
  var_shape : list nat;
  var_dtype : string
}.

(** The pretrained model a loss may carry. *)
Record PretrainedModel : Type := {
  trainable_variables : list variable
}.

(** The file system and environment [restore] reads. *)
Record Env (Session : Type) : Type := {
  expandvars : string -> string;
  expanduser : string -> string;
  latest_checkpoint : string -> option string;
  read_checkpoint : list variable -> Session -> string -> result Session
}.
Arguments expandvars {Session} e _.
Arguments expanduser {Session} e _.
Arguments latest_checkpoint {Session} e _.
Arguments read_checkpoint {Session} e _ _ _.

Section Model.
Context {T : Type} `{TensorOps T}.

(** A loss object: callable on (target audio, generated audio), with a
    [name] and an optional [pretrained_model]. *)
Record Loss : Type := {
  loss_name : string;
  loss_call : value T -> value T -> T;
  pretrained_model : option PretrainedModel
}.

Record ProcessorGroup : Type := {
  pg_name : string;
  pg_get_outputs : gmap string (value T) -> gmap string (value T)
}.

(** The attributes of a [Model], but for [tb_metrics], which is the state
    its methods run against. *)
Record t : Type := {
  preprocessor : gmap string (value T) -> bool -> gmap string (value T);
  encoder : option (gmap string (value T) -> gmap string (value T));
  decoder : option (gmap string (value T) -> gmap string (value T));
  processor_group : option ProcessorGroup;
  losses : list Loss
}.

(** [__init__].  [DefaultPreprocessor] and [SpectralLoss] stand for
    [preprocessing.DefaultPreprocessor()] and [ddsp.losses.SpectralLoss()];
    [x or y] takes [y] when [x] is [None] or an empty list;
    [core.make_iterable] leaves a list as it is. *)
Definition init
    (DefaultPreprocessor : gmap string (value T) -> bool -> gmap string (value T))
    (SpectralLoss : Loss)
    (preprocessor : option (gmap string (value T) -> bool -> gmap string (value T)))
    (encoder decoder : option (gmap string (value T) -> gmap string (value T)))
    (processor_group : option ProcessorGroup)
    (losses : option (list Loss)) : t :=
  {| preprocessor := match preprocessor with
                     | Some p => p
                     | None => DefaultPreprocessor
                     end;
     encoder := encoder;
     decoder := decoder;
     processor_group := processor_group;
     losses := match losses with
               | Some (l :: ls) => l :: ls
               | Some [] | None => [SpectralLoss]
               end |}.

(** [self.tb_metrics = {}]. *)
Definition init_tb_metrics : gmap string T := ∅.

(** [d[key]]. *)
Definition getitem {X : Type} (d : gmap string X) (key : string) : result X :=
  match d !! key with
  | Some v => Ok v
  | None => Err KeyError
  end.

(** [outputs[name]['signal']]. *)
Definition lookup_signal (outputs : gmap string (value T)) (name : string)
    : result (value T) :=
  entry <~? getitem outputs name ;;
  match entry with
  | VDict d => getitem d "signal"
  | VTensor _ => Err TypeError
  end.

Definition add_tb_metric (name : string) (tensor : T) : M (gmap string T) unit :=
  fun tb_metrics =>
    let metric_tensor := t_reduce_mean tensor in
    let metric_tensor := t_expand_dims metric_tensor in
    (Ok tt, <[name := metric_tensor]> tb_metrics).

(** A [for] loop over a list, threading the variables it assigns. *)
Fixpoint for_each {St X Acc : Type} (body : Acc -> X -> M St Acc)
    (xs : list X) (acc : Acc) : M St Acc :=
  match xs with
  | [] => ret acc
  | x :: xs' => acc' <~ body acc x ;; for_each body xs' acc'
  end.

(** The body of the loop over [self.losses], lines 84-88. *)
Definition loss_body (features : gmap string (value T)) (audio_gen : value T)
    (acc : T * gmap string (value T)) (loss_obj : Loss)
    : M (gmap string T) (T * gmap string (value T)) :=
  let '(total_loss, loss_dict) := acc in
  audio <~ lift (getitem features "audio") ;;
  let loss_term := loss_call loss_obj audio audio_gen in
  let total_loss := t_add total_loss loss_term in
  let loss_name := "losses/" +:+ loss_name loss_obj in
  let loss_dict := <[loss_name := VTensor loss_term]> loss_dict in
  _ <~ add_tb_metric loss_name loss_term ;;
  ret (total_loss, loss_dict).

Definition get_outputs (self : t) (features : gmap string (value T))
    (is_training : bool) : M (gmap string T) (gmap string (value T)) :=
  (* Data preprocessing *)
  let conditioning := preprocessor self features is_training in
  (* Encoder *)
  let conditioning := match encoder self with
                      | Some enc => enc conditioning
                      | None => conditioning
                      end in
  (* Decoder: calling [None] is a TypeError *)
  conditioning <~ match decoder self with
                  | Some dec => ret (dec conditioning)
                  | None => raise TypeError
                  end ;;
  (* Synthesizer: [None.get_outputs] is an AttributeError *)
  group <~ match processor_group self with
           | Some group => ret group
           | None => raise AttributeError
           end ;;
  let outputs := pg_get_outputs group conditioning in
  audio_gen <~ lift (lookup_signal outputs (pg_name group)) ;;
  let outputs := <["audio_gen" := audio_gen]> outputs in
  (* Losses *)
  acc <~ for_each (loss_body features audio_gen) (losses self) (t_zero, ∅) ;;
  let '(total_loss, loss_dict) := acc in
  (* Update tb and outputs *)
  _ <~ add_tb_metric "loss" total_loss ;;
  _ <~ add_tb_metric "global_step" t_global_step ;;
  let outputs := loss_dict ∪ outputs in
  let outputs := <["total_loss" := VTensor total_loss]> outputs in
  ret outputs.

(** [__call__]. *)
Definition call (self : t) (features : gmap string (value T))
    : M (gmap string T) (gmap string (value T)) :=
  get_outputs self features true.

(** The [pretrained_models] property. *)
Definition pretrained_models (self : t) : list PretrainedModel :=
  fold_left (fun pretrained_models loss_obj =>
               match pretrained_model loss_obj with
               | Some m => (pretrained_models ++ [m])%list
               | None => pretrained_models
               end)
            (losses self) [].

(** [get_variables_to_optimize]; [all_trainables] is what
    [tf.trainable_variables()] returns.  The calls of [logging.info] only
    write to the log. *)
Definition get_variables_to_optimize (self : t) (all_trainables : list variable)
    : list variable :=
  let vars_to_freeze :=
    fold_left (fun vars_to_freeze m => (vars_to_freeze ++ trainable_variables m)%list)
              (pretrained_models self) [] in
  let var_names_to_freeze := map var_name vars_to_freeze in
  fold_left (fun trainables x =>
               if bool_decide (var_name x ∈ var_names_to_freeze)
               then trainables
               else (trainables ++ [x])%list)
            all_trainables [].

(** [restore]; the timing and its log line are left out. *)
Definition restore {Session : Type} (env : Env Session) (self : t)
    (all_trainables : list variable) (sess : Session) (checkpoint_dir : string)
    : result Session :=
  let trainable_variables := get_variables_to_optimize self all_trainables in
  saver <~? tf_train.Saver trainable_variables ;;
  let checkpoint_path := expanduser env (expandvars env checkpoint_dir) in
  let checkpoint := latest_checkpoint env checkpoint_path in
  tf_train.restore (read_checkpoint env) saver sess checkpoint.
End Model.
#[global] Arguments Loss : clear implicits.
#[global] Arguments ProcessorGroup : clear implicits.
#[global] Arguments t T : clear implicits.
End Model.

(** ** ddsp.training.model: the hooks for [tf.estimator] *)

Module Estimator.
Section Estimator.
Context {T : Type} `{TensorOps T}.
Context {St Scaffold Mode HostCallFn EstimatorSpec : Type}.

(** What [model.py] calls in [ddsp.training.train_util]. *)
Record train_util : Type := {
  get_host_call_fn : string -> HostCallFn;
  get_estimator_spec :
    Model.value T -> Mode -> string -> bool -> M St Scaffold ->
    list Model.variable -> HostCallFn * gmap string T -> EstimatorSpec
}.

(** The [scaffold_fn] that [get_scaffold_fn] returns; it reads
    [self.pretrained_models] when it is called.  [init_from_checkpoint] is
    the method of the pretrained models and [new_scaffold] stands for
    [tf.train.Scaffold()]. *)
Definition get_scaffold_fn
    (init_from_checkpoint : Model.PretrainedModel -> M St unit)
    (new_scaffold : Scaffold) (self : Model.t T) : M St Scaffold :=
  _ <~ Model.for_each (fun (_ : unit) pretrained_model =>
                         init_from_checkpoint pretrained_model)
                      (Model.pretrained_models self) tt ;;
  ret new_scaffold.

(** [self.tb_metrics], read. *)
Definition read_tb_metrics : M (gmap string T) (gmap string T) :=
  fun tb_metrics => (Ok tb_metrics, tb_metrics).

(** The [model_fn] that [get_model_fn(use_tpu)] returns.  [labels] and
    [config] are deleted on entry; [params] maps names to paths;
    [all_trainables] is what [tf.trainable_variables()] returns. *)
Definition get_model_fn {Labels Config : Type} (util : train_util)
    (init_from_checkpoint : Model.PretrainedModel -> M St unit)
    (new_scaffold : Scaffold) (all_trainables : list Model.variable)
    (self : Model.t T) (use_tpu : bool)
    (features : gmap string (Model.value T)) (labels : Labels) (mode : Mode)
    (params : gmap string string) (config : Config)
    : M (gmap string T) EstimatorSpec :=
  outputs <~ Model.get_outputs self features true ;;
  let scaffold_fn := get_scaffold_fn init_from_checkpoint new_scaffold self in
  model_dir <~ lift (Model.getitem params "model_dir") ;;
  tb_metrics <~ read_tb_metrics ;;
  let host_call := (get_host_call_fn util model_dir, tb_metrics) in
  total_loss <~ lift (Model.getitem outputs "total_loss") ;;
  ret (get_estimator_spec util total_loss mode model_dir use_tpu scaffold_fn
         (Model.get_variables_to_optimize self all_trainables) host_call).
End Estimator.
#[global] Arguments train_util : clear implicits.
End Estimator.

(** ** Vocabulary of the statements *)

Section ListVocabulary.
Context {X V W : Type}.

(** What a position-wise relation [P] says about three lists. *)
Definition pointwise (P : X -> V -> W -> Prop) (xs : list X) (zs : list V)
    (ws : list W) : Prop :=
  length ws = length xs /\
  forall i x z, xs !! i = Some x -> zs !! i = Some z ->
    exists w, ws !! i = Some w /\ P x z w.

End ListVocabulary.

Section SynthVocabulary.
Context {St A : Type} `{Elem A}.

(** Half the sample rate, as [remove_above_nyquist] computes it. *)
Definition nyquist (sample_rate : Z) : A := fdiv (of_int sample_rate) (of_int 2).

(** The frequency of harmonic number [k + 1] over the fundamental [f0]. *)
Definition harmonic_frequency (f0 : A) (k : nat) : A :=
  fmul f0 (of_int (Z.of_nat (S k))).

(** One bandlimited frame [z], from the frame [fr] of [f0_hz] and the
    frame [r] of the harmonic distribution. *)
Definition frame_bandlimited (sample_rate : Z) (fr r z : frame A) : Prop :=
  length z = length r /\
  exists f0, fr = [f0] /\
  forall k x, r !! k = Some x ->
    z !! k = Some (if fgreater (harmonic_frequency f0 k) (nyquist sample_rate)
                   then fzero else x).

(** The control dictionary [get_controls] builds. *)
Definition controls (amplitudes harmonic_distribution f0_hz : tensor A)
    : gmap string (tensor A) :=
  <["amplitudes" := amplitudes]>
    (<["harmonic_distribution" := harmonic_distribution]>
       (<["f0_hz" := f0_hz]> ∅)).

(** Two runs of [m], from any two states, end the same way. *)
Definition deterministic {X : Type} (m : M St X) : Prop :=
  forall s1 s2, fst (m s1) = fst (m s2).

End SynthVocabulary.

Section ModelVocabulary.
Context {T : Type} `{TensorOps T}.

(** The names [get_variables_to_optimize] freezes. *)
Definition frozen_name (self : Model.t T) (name : string) : Prop :=
  exists loss_obj m y,
    loss_obj ∈ Model.losses self /\
    Model.pretrained_model loss_obj = Some m /\
    y ∈ Model.trainable_variables m /\
    Model.var_name y = name.

(** The key a loss is recorded under. *)
Definition loss_key (loss_obj : Model.Loss T) : string :=
  "losses/" +:+ Model.loss_name loss_obj.

(** What the loop over the losses leaves in [loss_dict]. *)
Definition record_losses (term : Model.Loss T -> T) (ls : list (Model.Loss T))
    (loss_dict : gmap string (Model.value T)) : gmap string (Model.value T) :=
  fold_left (fun d l => <[loss_key l := Model.VTensor (term l)]> d) ls loss_dict.

(** What it leaves in [tb_metrics]. *)
Definition record_metrics (term : Model.Loss T -> T) (ls : list (Model.Loss T))
    (tb_metrics : gmap string T) : gmap string T :=
  fold_left (fun m l => <[loss_key l := t_expand_dims (t_reduce_mean (term l))]> m)
            ls tb_metrics.

End ModelVocabulary.

(** ** Concrete inputs *)

Module Examples.

(** [Additive(amp_scale_fn=None)]: the other arguments at their defaults. *)
Definition additive_unscaled {A : Type} `{Elem A} : Additive.t unit A :=
  {| Additive.n_samples := 64000;
     Additive.sample_rate := 16000;
     Additive.amp_scale_fn := None;
     Additive.normalize_below_nyquist := true;
     Additive.name := "additive_synth" |}.

(** [FilteredNoise(amp_scale_fn=None)]. *)
Definition noise_unscaled {A : Type} : FilteredNoise.t unit A :=
  {| FilteredNoise.n_samples := 64000;
     FilteredNoise.window_size := 257;
     FilteredNoise.amp_scale_fn := None;
     FilteredNoise.noise_fade_fn := None;
     FilteredNoise.name := "filtered_noise_synth" |}.

(** A scaling function that doubles every value and counts its calls in
    the state. *)
Definition doubling {A : Type} `{Elem A} (x : tensor A) : M nat (tensor A) :=
  fun calls => (Ok (map_frames (map (fun v => fadd v v)) x), S calls).

Definition additive_doubling {A : Type} `{Elem A} : Additive.t nat A :=
  Additive.default doubling.

Definition noise_doubling {A : Type} `{Elem A} : FilteredNoise.t nat A :=
  FilteredNoise.default doubling.

(** One batch entry, one frame. *)
Definition one_frame {A : Type} `{Elem A} (values : list Z) : tensor A :=
  [[map of_int values]].

(** Scalar losses over the integers. *)
#[export] Instance int_tensor : TensorOps Z := {
  t_zero := 0;
  t_add := Z.add;
  t_reduce_mean := fun x => x;
  t_expand_dims := fun x => x;
  t_global_step := 0
}.

Definition distance (scale : Z) (target generated : Model.value Z) : Z :=
  match target, generated with
  | Model.VTensor x, Model.VTensor y => scale * Z.abs (x - y)
  | _, _ => 0
  end.

Definition spectral_loss (scale : Z) : Model.Loss Z :=
  {| Model.loss_name := "spectral_loss";
     Model.loss_call := distance scale;
     Model.pretrained_model := None |}.

Definition embedding_variable : Model.variable :=
  {| Model.var_name := "crepe/conv1/kernel";
     Model.var_shape := [3; 3]%nat;
     Model.var_dtype := "float32" |}.

Definition decoder_variable : Model.variable :=
  {| Model.var_name := "decoder/dense/kernel";
     Model.var_shape := [8; 8]%nat;
     Model.var_dtype := "float32" |}.

Definition embedding_loss : Model.Loss Z :=
  {| Model.loss_name := "embedding_loss";
     Model.loss_call := distance 3;
     Model.pretrained_model :=
       Some {| Model.trainable_variables := [embedding_variable] |} |}.

Definition identity_preprocessor (features : gmap string (Model.value Z))
    (is_training : bool) : gmap string (Model.value Z) := features.

(** A processor group that renders the signal [7]. *)
Definition group : Model.ProcessorGroup Z :=
  {| Model.pg_name := "processor_group";
     Model.pg_get_outputs := fun conditioning =>
       <["processor_group" :=
           Model.VDict (<["signal" := Model.VTensor 7]> ∅)]> ∅ |}.

Definition model_with (losses : list (Model.Loss Z)) : Model.t Z :=
  Model.init identity_preprocessor (spectral_loss 1)
             None None (Some (fun conditioning => conditioning)) (Some group)
             (Some losses).

(** [Model()]: no decoder, no processor group. *)
Definition bare_model : Model.t Z :=
  Model.init identity_preprocessor (spectral_loss 1) None None None None None.

Definition features : gmap string (Model.value Z) :=
  <["audio" := Model.VTensor 2]> ∅.

(** A home directory and no checkpoint anywhere. *)
Definition empty_disk : Model.Env unit :=
  {| Model.expandvars := fun path => path;
     Model.expanduser := fun path =>
       match path with
       | String ("~"%char) rest => "/home/user" +:+ rest
       | _ => path
       end;
     Model.latest_checkpoint := fun _ => None;
     Model.read_checkpoint := fun _ sess _ => Ok sess |}.
End Examples.

(** ** Vocabulary of the further properties *)


Section ForwardVocabulary.
Context {T : Type} `{TensorOps T}.

(** What the decoder of [get_outputs] is called on. *)
Definition encoded (self : Model.t T) (features : gmap string (Model.value T))
    (is_training : bool) : gmap string (Model.value T) :=
  match Model.encoder self with
  | Some enc => enc (Model.preprocessor self features is_training)
  | None => Model.preprocessor self features is_training
  end.

(** The sum [get_outputs] accumulates over the loss terms. *)
Definition total_of (term : Model.Loss T -> T) (ls : list (Model.Loss T)) : T :=
  fold_left t_add (map term ls) t_zero.

(** What one forward pass leaves in [tb_metrics]. *)
Definition register_metrics (term : Model.Loss T -> T) (ls : list (Model.Loss T))
    (tb_metrics : gmap string T) : gmap string T :=
  <["global_step" := t_expand_dims (t_reduce_mean t_global_step)]>
    (<["loss" := t_expand_dims (t_reduce_mean (total_of term ls))]>
       (record_metrics term ls tb_metrics)).

(** The names of the variables of the pretrained models, as
    [get_variables_to_optimize] collects them. *)
Definition frozen_names (self : Model.t T) : list string :=
  map Model.var_name
      (mjoin (map Model.trainable_variables
                  (omap Model.pretrained_model (Model.losses self)))).
End ForwardVocabulary.

(** An [init_from_checkpoint] that records the model it is called on. *)
Definition recording_init (m : Model.PretrainedModel)
    : M (list Model.PretrainedModel) unit :=
  fun initialised => (Ok tt, (initialised ++ [m])%list).

(** ** Further concrete inputs *)

Module MoreExamples.
Import Examples.

(** [Additive(amp_scale_fn=None, normalize_below_nyquist=False)]. *)
Definition additive_unlimited {A : Type} `{Elem A} : Additive.t unit A :=
  {| Additive.n_samples := 64000;
     Additive.sample_rate := 16000;
     Additive.amp_scale_fn := None;
     Additive.normalize_below_nyquist := false;
     Additive.name := "additive_synth" |}.

(** A processor group whose outputs hold a tensor under its name. *)
Definition flat_group : Model.ProcessorGroup Z :=
  {| Model.pg_name := "processor_group";
     Model.pg_get_outputs := fun conditioning =>
       <["processor_group" := Model.VTensor 7]> ∅ |}.

Definition model_of (group : Model.ProcessorGroup Z)
    (losses : option (list (Model.Loss Z))) : Model.t Z :=
  Model.init identity_preprocessor (spectral_loss 1)
             None None (Some (fun conditioning => conditioning)) (Some group)
             losses.

(** A pretrained model without variables, on which the
    [init_from_checkpoint] below raises. *)
Definition hollow_model : Model.PretrainedModel :=
  {| Model.trainable_variables := [] |}.

Definition hollow_loss : Model.Loss Z :=
  {| Model.loss_name := "hollow_loss";
     Model.loss_call := distance 5;
     Model.pretrained_model := Some hollow_model |}.

(** An [init_from_checkpoint] that counts the models it loads and raises
    on a model without variables. *)
Definition counting_init (m : Model.PretrainedModel) : M nat unit :=
  fun loaded =>
    match Model.trainable_variables m with
    | [] => (Err ValueError, loaded)
    | _ :: _ => (Ok tt, S loaded)
    end.

(** A [train_util] whose estimator spec is the tuple of what it is given,
    but for the scaffold function. *)
Definition tuple_util
    : Estimator.train_util Z nat unit string string
        (Model.value Z * string * string * bool * list Model.variable *
         (string * gmap string Z)) :=
  {| Estimator.get_host_call_fn := fun model_dir => model_dir;
     Estimator.get_estimator_spec :=
       fun loss mode model_dir use_tpu scaffold_fn variables host_call =>
         (loss, mode, model_dir, use_tpu, variables, host_call) |}.
End MoreExamples.

(** * Properties *)

(** ** Lists and shapes *)

Section Traversals.
Context {X Y V W : Type}.

(** [traverse f] followed by [zip_exact g] against a list of the same
    length succeeds as soon as it does at every position. *)
Lemma traverse_zip_exact (f : X -> result Y) (g : Y -> V -> result W)
    (P : X -> V -> W -> Prop) (xs : list X) (zs : list V) :
  length xs = length zs ->
  (forall i x z, xs !! i = Some x -> zs !! i = Some z ->
     exists y w, f x = Ok y /\ g y z = Ok w /\ P x z w) ->
  exists ys ws, traverse f xs = Ok ys /\ zip_exact g ys zs = Ok ws /\
                pointwise P xs zs ws.
Proof.
  revert zs. induction xs as [|x xs IH]; intros [|z zs] Hlen Hpos;
    simpl in Hlen; try discriminate.
  - exists [], []. repeat split. intros i x z Hx. discriminate.
  - destruct (Hpos 0%nat x z eq_refl eq_refl) as (y & w & Hf & Hg & HP).
    destruct (IH zs) as (ys & ws & Ht & Hz & Hl & Hw).
    + congruence.
    + intros i x' z' Hx' Hz'. apply (Hpos (S i)); assumption.
    + exists (y :: ys), (w :: ws). simpl. rewrite Hf, Ht. simpl.
      rewrite Hg, Hz. simpl. repeat split.
      * simpl. f_equal. exact Hl.
      * intros [|i] x' z' Hx' Hz'; simpl in *.
        -- exists w. split; congruence.
        -- apply Hw; assumption.
Qed.
End Traversals.

Lemma has_shape_spec {A : Type} (nb nt nc : nat) (x : tensor A) :
  has_shape nb nt nc x = true <->
  length x = nb /\
  Forall (fun m => length m = nt /\ Forall (fun r => length r = nc) m) x.
Proof.
  unfold has_shape. rewrite andb_true_iff, Nat.eqb_eq, forallb_forall.
  rewrite Forall_forall. setoid_rewrite <- list_elem_of_In.
  split; intros [Hl Hx]; split; try assumption; intros m Hm;
    specialize (Hx m Hm).
  - apply andb_true_iff in Hx as [Hm1 Hm2]. apply Nat.eqb_eq in Hm1.
    split; [assumption|]. rewrite forallb_forall in Hm2.
    apply Forall_forall. intros r Hr. apply Nat.eqb_eq, Hm2.
    apply list_elem_of_In, Hr.
  - destruct Hx as [Hm1 Hm2]. apply andb_true_iff. split.
    + apply Nat.eqb_eq, Hm1.
    + apply forallb_forall. intros r Hr. apply Nat.eqb_eq.
      rewrite Forall_forall in Hm2. apply Hm2, list_elem_of_In, Hr.
Qed.

(** The frame found at a position of a tensor of known shape. *)
Lemma has_shape_lookup {A : Type} (nb nt nc : nat) (x : tensor A) b t m r :
  has_shape nb nt nc x = true -> x !! b = Some m -> m !! t = Some r ->
  length m = nt /\ length r = nc.
Proof.
  intros Hs Hb Ht. apply has_shape_spec in Hs as [_ Hs].
  rewrite Forall_forall in Hs.
  destruct (Hs m) as [Hm Hr]; [eapply list_elem_of_lookup_2, Hb|].
  split; [assumption|]. rewrite Forall_forall in Hr.
  apply Hr. eapply list_elem_of_lookup_2, Ht.
Qed.

(** Where a tensor of known shape has a frame at all, [last_dim] is its
    channel count. *)
Lemma has_shape_last_dim {A : Type} (nb nt nc : nat) (x : tensor A) b t m r :
  has_shape nb nt nc x = true -> x !! b = Some m -> m !! t = Some r ->
  last_dim x = nc.
Proof.
  intros Hs Hb Ht.
  destruct (has_shape_lookup _ _ _ _ _ _ _ _ Hs Hb Ht) as [Hm _].
  destruct x as [|m0 x]; [discriminate|].
  apply has_shape_spec in Hs as [_ Hs].
  apply Forall_cons in Hs as [[Hm0 Hr0] _].
  destruct m0 as [|r0 m0].
  - simpl in Hm0. subst nt. destruct m; discriminate.
  - simpl. apply Forall_cons in Hr0 as [Hr0 _]. exact Hr0.
Qed.

(** ** Bandlimiting *)

Section Bandlimit.
Context {St A : Type} `{Elem A}.

Lemma zip_exact_frame (nyq f0 : A) (r : frame A) (start : nat) :
  exists z,
    zip_exact (fun f a => Ok (tf.where_zero (fgreater f nyq) a))
      (map (fun ratio => fmul f0 ratio)
           (map (fun k => of_int (Z.of_nat k)) (seq start (length r)))) r = Ok z /\
    length z = length r /\
    forall k x, r !! k = Some x ->
      z !! k = Some (if fgreater (fmul f0 (of_int (Z.of_nat (start + k)))) nyq
                     then fzero else x).
Proof.
  revert start. induction r as [|a r IH]; intros start.
  - exists []. repeat split. intros k x Hk. discriminate.
  - destruct (IH (S start)) as (z & Hz & Hl & Hk).
    exists (tf.where_zero (fgreater (fmul f0 (of_int (Z.of_nat start))) nyq) a :: z).
    simpl. rewrite Hz. simpl. repeat split.
    + f_equal. exact Hl.
    + intros [|k] x Hx; simpl in *.
      * injection Hx as ->. rewrite Nat.add_0_r. reflexivity.
      * rewrite (Hk k x Hx). rewrite Nat.add_succ_r. reflexivity.
Qed.

(** With [normalize_below_nyquist] set and inputs of matching shapes, the
    bandlimiting step returns, and its result holds zero where the
    harmonic is above Nyquist and the input elsewhere. *)
Lemma bandlimit_spec (self : Additive.t St A) (hd f0_hz : tensor A) (nb nt nc : nat) :
  Additive.normalize_below_nyquist self = true ->
  has_shape nb nt nc hd = true ->
  has_shape nb nt 1 f0_hz = true ->
  exists pre,
    Additive.bandlimit self hd f0_hz = Ok pre /\
    pointwise (pointwise (frame_bandlimited (Additive.sample_rate self)))
              f0_hz hd pre.
Proof.
  intros Hset Hhd Hf0. unfold Additive.bandlimit. rewrite Hset.
  unfold core.get_harmonic_frequencies, core.remove_above_nyquist.
  set (nyq := fdiv (of_int (Additive.sample_rate self)) (of_int 2)).
  match goal with
  | |- context [traverse (traverse ?f) f0_hz] => set (hf := f)
  end.
  match goal with
  | |- context [zip_exact (zip_exact (zip_exact ?g))] => set (wh := g)
  end.
  destruct (traverse_zip_exact (traverse hf) (zip_exact (zip_exact wh))
              (pointwise (frame_bandlimited (Additive.sample_rate self)))
              f0_hz hd) as (hfs & pre & Ht & Hz & Hp).
  - apply has_shape_spec in Hhd as [-> _].
    apply has_shape_spec in Hf0 as [-> _]. reflexivity.
  - intros b fs m Hfs Hm.
    apply (traverse_zip_exact hf (zip_exact wh)).
    + apply has_shape_spec in Hhd as [_ Hhd], Hf0 as [_ Hf0].
      rewrite Forall_forall in Hhd, Hf0.
      destruct (Hhd m) as [-> _]; [eapply list_elem_of_lookup_2, Hm|].
      destruct (Hf0 fs) as [-> _]; [eapply list_elem_of_lookup_2, Hfs|].
      reflexivity.
    + intros t fr r Hfr Hr.
      destruct (has_shape_lookup _ _ _ _ _ _ _ _ Hf0 Hfs Hfr) as [_ Hfr1].
      destruct (has_shape_lookup _ _ _ _ _ _ _ _ Hhd Hm Hr) as [_ Hr1].
      assert (Hld := has_shape_last_dim _ _ _ _ _ _ _ _ Hhd Hm Hr).
      destruct fr as [|f0 [|? ?]]; try discriminate.
      destruct (zip_exact_frame nyq f0 r 1) as (z & Hzf & Hl & Hk).
      exists (map (fun ratio => fmul f0 ratio) (tf.linspace_1 nc)), z.
      split; [subst hf; simpl; rewrite Hld; reflexivity|]. split.
      * unfold tf.linspace_1. rewrite <- Hr1. exact Hzf.
      * split; [exact Hl|]. exists f0. split; [reflexivity|].
        intros k x Hx. rewrite (Hk k x Hx). reflexivity.
  - exists pre. rewrite Ht. simpl. split; [exact Hz|exact Hp].
Qed.

(** [pointwise] at all three levels, read at one position. *)
Lemma pointwise_tget (sample_rate : Z) (f0_hz hd pre : tensor A) b t k f0 x :
  pointwise (pointwise (frame_bandlimited sample_rate)) f0_hz hd pre ->
  tget f0_hz b t 0 = Some f0 -> tget hd b t k = Some x ->
  tget pre b t k =
    Some (if fgreater (harmonic_frequency f0 k) (nyquist sample_rate)
          then fzero else x).
Proof.
  intros [_ Hp] Hf Hx. unfold tget, tframe in *.
  destruct (f0_hz !! b) as [fs|] eqn:Hfs; [|discriminate].
  destruct (hd !! b) as [m|] eqn:Hm; [|discriminate].
  destruct (Hp b fs m Hfs Hm) as (pm & -> & _ & Hpm).
  destruct (fs !! t) as [fr|] eqn:Hfr; [|discriminate].
  destruct (m !! t) as [r|] eqn:Hr; [|discriminate].
  destruct (Hpm t fr r Hfr Hr) as (z & -> & _ & f0' & -> & Hz).
  simpl in Hf. injection Hf as ->. apply (Hz k x Hx).
Qed.
End Bandlimit.

(** ** The stages of [Additive.get_controls] *)

Section Controls.
Context {St A : Type} `{Elem A}.

Lemma pointwise_tframe (sample_rate : Z) (f0_hz hd pre : tensor A) b t fr r :
  pointwise (pointwise (frame_bandlimited sample_rate)) f0_hz hd pre ->
  tframe f0_hz b t = Some fr -> tframe hd b t = Some r ->
  exists z, tframe pre b t = Some z /\ frame_bandlimited sample_rate fr r z.
Proof.
  intros [_ Hp] Hf Hx. unfold tframe in *.
  destruct (f0_hz !! b) as [fs|] eqn:Hfs; [|discriminate].
  destruct (hd !! b) as [m|] eqn:Hm; [|discriminate].
  destruct (Hp b fs m Hfs Hm) as (pm & -> & _ & Hpm).
  apply (Hpm t fr r Hf Hx).
Qed.

Lemma tframe_normalize (x : tensor A) b t :
  tframe (Additive.normalize x) b t =
  (fun r => map (fun v => fdiv v (tf.reduce_sum r)) r) <$> tframe x b t.
Proof.
  unfold tframe, Additive.normalize, map_frames.
  rewrite list_lookup_fmap. destruct (x !! b) as [m|]; simpl; [|reflexivity].
  apply list_lookup_fmap.
Qed.

Lemma controls_lookup (a h f : tensor A) :
  controls a h f !! "amplitudes" = Some a /\
  controls a h f !! "harmonic_distribution" = Some h /\
  controls a h f !! "f0_hz" = Some f.
Proof. unfold controls. repeat split; simplify_map_eq; reflexivity. Qed.

(** [get_controls] returns exactly when its first two stages do. *)
Lemma get_controls_run (self : Additive.t St A) a h f0_hz s a' h' s1 pre :
  Additive.scale self a h s = (Ok (a', h'), s1) ->
  Additive.bandlimit self h' f0_hz = Ok pre ->
  Additive.get_controls self a h f0_hz s =
    (Ok (controls a' (Additive.normalize pre) f0_hz), s1).
Proof.
  intros Hs Hb. unfold Additive.get_controls, bind, lift, ret.
  rewrite Hs. simpl. rewrite Hb. reflexivity.
Qed.

Lemma get_controls_inv (self : Additive.t St A) a h f0_hz s c s1 :
  Additive.get_controls self a h f0_hz s = (Ok c, s1) ->
  exists a' h' pre,
    Additive.scale self a h s = (Ok (a', h'), s1) /\
    Additive.bandlimit self h' f0_hz = Ok pre /\
    c = controls a' (Additive.normalize pre) f0_hz.
Proof.
  unfold Additive.get_controls, bind, lift, ret. intros Hrun.
  destruct (Additive.scale self a h s) as [[[a' h']|e] s'] eqn:Hs;
    [|discriminate].
  destruct (Additive.bandlimit self h' f0_hz) as [pre|e] eqn:Hb;
    [|discriminate].
  injection Hrun as <- <-. exists a', h', pre. repeat split. assumption.
Qed.

(** The only error of the helpers is a shape mismatch. *)
Lemma traverse_err {X Y : Type} (f : X -> result Y) (xs : list X) e :
  (forall x e', f x = Err e' -> e' = ShapeMismatchError) ->
  traverse f xs = Err e -> e = ShapeMismatchError.
Proof.
  intros Hf. induction xs as [|x xs IH]; simpl; [discriminate|].
  destruct (f x) as [y|e'] eqn:Hx; simpl.
  - destruct (traverse f xs) as [ys|e'']; simpl; [discriminate|].
    intros [= <-]. apply IH. reflexivity.
  - intros [= <-]. eapply Hf, Hx.
Qed.

Lemma zip_exact_err {X Y V : Type} (f : X -> Y -> result V) xs ys e :
  (forall x y e', f x y = Err e' -> e' = ShapeMismatchError) ->
  zip_exact f xs ys = Err e -> e = ShapeMismatchError.
Proof.
  intros Hf. revert ys. induction xs as [|x xs IH]; intros [|y ys]; simpl;
    try discriminate; try (intros [= <-]; reflexivity).
  destruct (f x y) as [z|e'] eqn:Hxy; simpl.
  - destruct (zip_exact f xs ys) as [zs|e''] eqn:Hz; simpl; [discriminate|].
    intros [= <-]. eapply IH, Hz.
  - intros [= <-]. eapply Hf, Hxy.
Qed.

Lemma bandlimit_err (self : Additive.t St A) hd f0_hz e :
  Additive.bandlimit self hd f0_hz = Err e -> e = ShapeMismatchError.
Proof.
  unfold Additive.bandlimit.
  destruct (Additive.normalize_below_nyquist self); [|discriminate].
  unfold core.get_harmonic_frequencies, core.remove_above_nyquist.
  match goal with
  | |- context [rbind ?m _] => destruct m as [hf|e'] eqn:Hhf
  end; simpl.
  - intros Hz. revert Hz. apply zip_exact_err. intros x y e'.
    apply zip_exact_err. intros x' y' e''.
    apply zip_exact_err. discriminate.
  - intros [= <-]. revert Hhf. apply traverse_err. intros x e''.
    apply traverse_err. intros [|f [|? ?]] e3; try discriminate;
      intros [= <-]; reflexivity.
Qed.
End Controls.

(** ** Additive.get_controls: bandlimiting and the fundamental *)

Section AdditiveControls.
Context {St A : Type} `{Elem A}.

(** C3.  With [normalize_below_nyquist] set and inputs of matching shapes,
    [Additive.get_controls] returns the normalization of a tensor [pre]
    that holds zero at every batch/frame/harmonic position whose harmonic
    frequency [f0_hz * (k + 1)] is greater than half the sample rate, and
    the (scaled) harmonic distribution at every other position. *)
Theorem get_controls_bandlimits (self : Additive.t St A)
    (a h f0_hz a' h' : tensor A) (s s1 : St) (nb nt nc : nat) :
  Additive.normalize_below_nyquist self = true ->
  Additive.scale self a h s = (Ok (a', h'), s1) ->
  has_shape nb nt nc h' = true ->
  has_shape nb nt 1 f0_hz = true ->
  exists pre c,
    Additive.get_controls self a h f0_hz s = (Ok c, s1) /\
    c !! "harmonic_distribution" = Some (Additive.normalize pre) /\
    forall b t k f0 x,
      tget f0_hz b t 0 = Some f0 -> tget h' b t k = Some x ->
      tget pre b t k =
        Some (if fgreater (harmonic_frequency f0 k)
                          (nyquist (Additive.sample_rate self))
              then fzero else x).
Proof.
  intros Hset Hscale Hh Hf.
  destruct (bandlimit_spec self h' f0_hz nb nt nc Hset Hh Hf) as (pre & Hb & Hp).
  exists pre, (controls a' (Additive.normalize pre) f0_hz).
  split; [apply (get_controls_run _ _ _ _ _ _ _ _ _ Hscale Hb)|].
  split; [apply controls_lookup|].
  intros b t k f0 x Hf0 Hx. eapply pointwise_tget; eassumption.
Qed.

(** C10.  The ['f0_hz'] entry of the dictionary [Additive.get_controls]
    returns is its [f0_hz] argument, whatever [amp_scale_fn] and
    [normalize_below_nyquist] are. *)
Theorem get_controls_keeps_f0_hz (self : Additive.t St A)
    (a h f0_hz : tensor A) (s s1 : St) (c : gmap string (tensor A)) :
  Additive.get_controls self a h f0_hz s = (Ok c, s1) ->
  c !! "f0_hz" = Some f0_hz.
Proof.
  intros Hrun. apply get_controls_inv in Hrun as (a' & h' & pre & _ & _ & ->).
  apply controls_lookup.
Qed.
End AdditiveControls.

(** ** Unscaled controls *)

Section Unscaled.
Context {St A : Type} `{Elem A}.

(** C8, as the code has it.  With [amp_scale_fn] set to [None] both
    control paths hand the amplitude and magnitude tensors through as they
    are, whatever the sign of their values: [FilteredNoise.get_controls]
    always returns its argument under ['magnitudes'];
    [Additive.get_controls] never raises [InvalidControlError], leaves the
    state alone, and when it returns, ['amplitudes'] is its argument. *)
Theorem unscaled_controls_pass_through
    (noise : FilteredNoise.t St A) (synth : Additive.t St A)
    (x a h f0_hz : tensor A) (s : St) :
  FilteredNoise.amp_scale_fn noise = None ->
  Additive.amp_scale_fn synth = None ->
  FilteredNoise.get_controls noise x s = (Ok (<["magnitudes" := x]> ∅), s) /\
  fst (Additive.get_controls synth a h f0_hz s) <> Err InvalidControlError /\
  snd (Additive.get_controls synth a h f0_hz s) = s /\
  forall c, fst (Additive.get_controls synth a h f0_hz s) = Ok c ->
            c !! "amplitudes" = Some a.
Proof.
  intros Hnoise Hsynth. split.
  { unfold FilteredNoise.get_controls. rewrite Hnoise. reflexivity. }
  assert (Hscale : Additive.scale synth a h s = (Ok (a, h), s)).
  { unfold Additive.scale. rewrite Hsynth. reflexivity. }
  unfold Additive.get_controls, bind, lift, ret. rewrite Hscale. simpl.
  destruct (Additive.bandlimit synth h f0_hz) as [pre|e] eqn:Hb; simpl.
  - repeat split; [discriminate|]. intros c [= <-].
    apply (controls_lookup a (Additive.normalize pre) f0_hz).
  - apply bandlimit_err in Hb as ->. repeat split; discriminate.
Qed.
End Unscaled.

(** ** Determinism of control derivation *)

Section Determinism.
Context {St : Type}.

Lemma deterministic_ret {X : Type} (x : X) : deterministic (ret x : M St X).
Proof. intros s1 s2. reflexivity. Qed.

Lemma deterministic_lift {X : Type} (r : result X) :
  deterministic (lift r : M St X).
Proof. intros s1 s2. reflexivity. Qed.

Lemma deterministic_bind {X Y : Type} (m : M St X) (k : X -> M St Y) :
  deterministic m -> (forall x, deterministic (k x)) ->
  deterministic (bind m k).
Proof.
  intros Hm Hk s1 s2. unfold bind. specialize (Hm s1 s2).
  destruct (m s1) as [[x1|e1] s1'], (m s2) as [[x2|e2] s2']; simpl in Hm;
    try discriminate.
  - injection Hm as ->. apply Hk.
  - injection Hm as ->. reflexivity.
Qed.

Context {A : Type} `{Elem A}.

(** C9.  When the configured [amp_scale_fn] has no randomness of its own,
    two calls of [Additive.get_controls] on the same inputs return the same
    thing, from whatever states they start; and so do two calls of
    [FilteredNoise.get_controls]. *)
Theorem get_controls_deterministic
    (synth : Additive.t St A) (noise : FilteredNoise.t St A)
    (a h f0_hz x : tensor A) :
  (forall fn y, Additive.amp_scale_fn synth = Some fn -> deterministic (fn y)) ->
  (forall fn y, FilteredNoise.amp_scale_fn noise = Some fn -> deterministic (fn y)) ->
  (forall s1 s2, fst (Additive.get_controls synth a h f0_hz s1) =
                 fst (Additive.get_controls synth a h f0_hz s2)) /\
  (forall s1 s2, fst (FilteredNoise.get_controls noise x s1) =
                 fst (FilteredNoise.get_controls noise x s2)).
Proof.
  intros Hsynth Hnoise. split.
  - change (deterministic (Additive.get_controls synth a h f0_hz)).
    unfold Additive.get_controls. apply deterministic_bind.
    + unfold Additive.scale.
      destruct (Additive.amp_scale_fn synth) as [fn|] eqn:Hfn.
      * apply deterministic_bind; [eapply Hsynth; reflexivity|]. intros a'.
        apply deterministic_bind; [eapply Hsynth; reflexivity|]. intros h'.
        apply deterministic_ret.
      * apply deterministic_ret.
    + intros [a' h']. apply deterministic_bind; [apply deterministic_lift|].
      intros pre. apply deterministic_ret.
  - change (deterministic (FilteredNoise.get_controls noise x)).
    unfold FilteredNoise.get_controls. apply deterministic_bind.
    + destruct (FilteredNoise.amp_scale_fn noise) as [fn|] eqn:Hfn.
      * eapply Hnoise; reflexivity.
      * apply deterministic_ret.
    + intros m. apply deterministic_ret.
Qed.
End Determinism.

(** ** The degenerate frame, in binary32 *)

Section Degenerate.
Context {St : Type}.

Lemma reduce_sum_zeros (n : nat) :
  tf.reduce_sum (replicate n (S754_zero false)) = S754_zero false.
Proof.
  unfold tf.reduce_sum. simpl.
  induction n as [|n IH]; simpl; [reflexivity|exact IH].
Qed.

(** A frame of which every harmonic is above Nyquist is all zeros after
    bandlimiting. *)
Lemma frame_all_suppressed (sample_rate : Z) (fr r z : frame spec_float) f0 :
  frame_bandlimited sample_rate fr r z -> fr = [f0] ->
  (forall k, (k < length r)%nat ->
     fgreater (harmonic_frequency f0 k) (nyquist sample_rate) = true) ->
  z = replicate (length r) (S754_zero false).
Proof.
  intros (Hl & f0' & -> & Hz) [= <-] Habove. symmetry.
  apply replicate_as_Forall. split; [exact Hl|].
  apply Forall_lookup. intros k y Hy.
  assert (Hk : (k < length r)%nat).
  { rewrite <- Hl. eapply lookup_lt_Some, Hy. }
  destruct (lookup_lt_is_Some_2 r k Hk) as [x Hx].
  rewrite (Hz k x Hx), (Habove k Hk) in Hy. injection Hy as <-. reflexivity.
Qed.

(** C1, as the code has it.  With [normalize_below_nyquist] set, at a
    batch/frame position where every harmonic frequency is above half the
    sample rate, every entry of the returned [harmonic_distribution] is
    NaN: the frame is all zeros after bandlimiting, its sum is zero, and
    the normalization divides zero by zero. *)
Theorem get_controls_nan_above_nyquist (self : Additive.t St spec_float)
    (a h f0_hz a' h' : tensor spec_float) (s s1 : St)
    (nb nt nc b t : nat) (f0 : spec_float) :
  Additive.normalize_below_nyquist self = true ->
  Additive.scale self a h s = (Ok (a', h'), s1) ->
  has_shape nb nt nc h' = true ->
  has_shape nb nt 1 f0_hz = true ->
  tget f0_hz b t 0 = Some f0 ->
  (forall k, (k < nc)%nat ->
     fgreater (harmonic_frequency f0 k)
              (nyquist (Additive.sample_rate self)) = true) ->
  exists c out,
    Additive.get_controls self a h f0_hz s = (Ok c, s1) /\
    c !! "harmonic_distribution" = Some out /\
    forall k, (k < nc)%nat ->
      exists v, tget out b t k = Some v /\ Float32.is_nan v = true.
Proof.
  intros Hset Hscale Hh Hf Hf0 Habove.
  destruct (bandlimit_spec self h' f0_hz nb nt nc Hset Hh Hf) as (pre & Hb & Hp).
  exists (controls a' (Additive.normalize pre) f0_hz), (Additive.normalize pre).
  split; [apply (get_controls_run _ _ _ _ _ _ _ _ _ Hscale Hb)|].
  split; [apply controls_lookup|].
  intros k Hk. unfold tget in *.
  destruct (tframe f0_hz b t) as [fr|] eqn:Hfr; [|discriminate].
  assert (Hr : exists r, tframe h' b t = Some r /\ length r = nc /\ fr = [f0]).
  { unfold tframe in Hfr |- *.
    destruct (f0_hz !! b) as [fs|] eqn:Hfs; [|discriminate].
    destruct (has_shape_lookup _ _ _ _ _ _ _ _ Hf Hfs Hfr) as [Hnt Hfr1].
    apply has_shape_spec in Hf as [Hnb _].
    assert (Hb' : (b < length h')%nat).
    { apply has_shape_spec in Hh as [-> _]. rewrite <- Hnb.
      eapply lookup_lt_Some, Hfs. }
    destruct (lookup_lt_is_Some_2 h' b Hb') as [m Hm]. rewrite Hm.
    assert (Ht : (t < length m)%nat).
    { apply has_shape_spec in Hh as [_ Hh]. rewrite Forall_forall in Hh.
      destruct (Hh m) as [-> _]; [eapply list_elem_of_lookup_2, Hm|].
      rewrite <- Hnt. eapply lookup_lt_Some, Hfr. }
    destruct (lookup_lt_is_Some_2 m t Ht) as [r Hr]. exists r.
    split; [exact Hr|].
    destruct (has_shape_lookup _ _ _ _ _ _ _ _ Hh Hm Hr) as [_ Hrc].
    split; [exact Hrc|].
    destruct fr as [|f [|? ?]]; try discriminate.
    simpl in Hf0. injection Hf0 as ->. reflexivity. }
  destruct Hr as (r & Hr & Hrc & ->).
  destruct (pointwise_tframe _ _ _ _ _ _ _ _ Hp Hfr Hr) as (z & Hz & Hzb).
  rewrite tframe_normalize, Hz. simpl.
  rewrite (frame_all_suppressed _ _ _ _ f0 Hzb eq_refl) by (rewrite Hrc; exact Habove).
  rewrite reduce_sum_zeros, Hrc. exists S754_nan. split; [|reflexivity].
  rewrite list_lookup_fmap, lookup_replicate_2 by exact Hk. reflexivity.
Qed.
End Degenerate.

(** ** Normalization, in exact arithmetic *)

Section Normalized.
Context {St : Type}.




End Normalized.

(** ** Model: the variables to optimize *)

Section VariablesToOptimize.
Context {T : Type} `{TensorOps T}.

Lemma pretrained_models_omap (self : Model.t T) :
  Model.pretrained_models self = omap Model.pretrained_model (Model.losses self).
Proof.
  unfold Model.pretrained_models.
  enough (Hgen : forall ls acc,
    fold_left (fun pms loss_obj =>
                 match Model.pretrained_model loss_obj with
                 | Some m => (pms ++ [m])%list
                 | None => pms
                 end) ls acc
    = (acc ++ omap Model.pretrained_model ls)%list)
    by exact (Hgen (Model.losses self) []).
  induction ls as [|l ls IH]; intros acc; simpl.
  - symmetry. apply app_nil_r.
  - rewrite IH. destruct (Model.pretrained_model l) as [m|]; [|reflexivity].
    rewrite <- app_assoc. reflexivity.
Qed.

Lemma fold_left_extend {X Y : Type} (f : X -> list Y) (xs : list X) (acc : list Y) :
  fold_left (fun acc x => (acc ++ f x)%list) xs acc = (acc ++ mjoin (map f xs))%list.
Proof.
  revert acc. induction xs as [|x xs IH]; intros acc; simpl.
  - symmetry. apply app_nil_r.
  - rewrite IH, <- app_assoc. reflexivity.
Qed.

Lemma fold_left_keep {X : Type} (keep : X -> bool) (xs acc : list X) :
  fold_left (fun acc x => if keep x then acc else (acc ++ [x])%list) xs acc =
  (acc ++ List.filter (fun x => negb (keep x)) xs)%list.
Proof.
  revert acc. induction xs as [|x xs IH]; intros acc; simpl.
  - symmetry. apply app_nil_r.
  - rewrite IH. destruct (keep x); simpl; [reflexivity|].
    rewrite <- app_assoc. reflexivity.
Qed.

(** C5.  [get_variables_to_optimize] returns the trainable variables
    whose name is not the name of a trainable variable of the
    [pretrained_model] of any loss: none of those, and every other one. *)
Theorem variables_to_optimize_exact (self : Model.t T)
    (all_trainables : list Model.variable) (x : Model.variable) :
  x ∈ Model.get_variables_to_optimize self all_trainables <->
  x ∈ all_trainables /\ ~ frozen_name self (Model.var_name x).
Proof.
  unfold Model.get_variables_to_optimize.
  rewrite fold_left_keep, fold_left_extend, pretrained_models_omap. simpl.
  rewrite list_elem_of_In, filter_In, <- list_elem_of_In.
  rewrite negb_true_iff, bool_decide_eq_false.
  apply and_iff_compat_l.
  enough (Hfrozen : Model.var_name x ∈
            map Model.var_name
              (mjoin (map Model.trainable_variables
                 (omap Model.pretrained_model (Model.losses self))))
          <-> frozen_name self (Model.var_name x)) by (rewrite Hfrozen; reflexivity).
  unfold frozen_name. rewrite list_elem_of_fmap. split.
  - intros (y & Hname & Hy). apply list_elem_of_join in Hy as (vs & Hy & Hvs).
    apply list_elem_of_fmap in Hvs as (m & -> & Hm).
    apply list_elem_of_omap in Hm as (loss_obj & Hloss & Hm).
    exists loss_obj, m, y. repeat split; try assumption. symmetry. exact Hname.
  - intros (loss_obj & m & y & Hloss & Hm & Hy & Hname).
    exists y. split; [symmetry; exact Hname|].
    apply list_elem_of_join. exists (Model.trainable_variables m).
    split; [exact Hy|]. apply list_elem_of_fmap. exists m.
    split; [reflexivity|]. apply list_elem_of_omap. exists loss_obj.
    split; assumption.
Qed.
End VariablesToOptimize.

(** ** Model: restoring and missing collaborators *)

Section Failures.
Context {T : Type} `{TensorOps T}.

(** C6, as the code has it.  When the expanded [checkpoint_dir] holds no
    checkpoint, [Model.restore] fails, with the [ValueError] of
    [tf.train.Saver]: the model itself has no check and no error class of
    its own. *)
Theorem restore_without_checkpoint {Session : Type} (env : Model.Env Session)
    (self : Model.t T) (all_trainables : list Model.variable)
    (sess : Session) (checkpoint_dir : string) :
  Model.latest_checkpoint env
    (Model.expanduser env (Model.expandvars env checkpoint_dir)) = None ->
  Model.restore env self all_trainables sess checkpoint_dir = Err ValueError.
Proof.
  intros Hnone. unfold Model.restore.
  destruct (Model.get_variables_to_optimize self all_trainables) as [|v vs];
    simpl; [reflexivity|].
  rewrite Hnone. reflexivity.
Qed.

(** C7, as the code has it.  A model without a decoder or without a
    processor group is constructed all the same and fails at its first
    [get_outputs], before any metric is registered: with [TypeError] when
    the decoder is missing, with [AttributeError] when only the processor
    group is. *)
Theorem get_outputs_without_collaborator (self : Model.t T)
    (features : gmap string (Model.value T)) (is_training : bool)
    (tb_metrics : gmap string T) :
  Model.decoder self = None \/ Model.processor_group self = None ->
  Model.get_outputs self features is_training tb_metrics =
    (Err (match Model.decoder self with
          | None => TypeError
          | Some _ => AttributeError
          end), tb_metrics).
Proof.
  intros Hmissing. unfold Model.get_outputs, bind, raise, ret.
  destruct (Model.decoder self) as [dec|]; [|reflexivity].
  destruct Hmissing as [Hdec|Hgroup]; [discriminate|].
  rewrite Hgroup. reflexivity.
Qed.
End Failures.

(** ** Model: the outputs of the forward pass *)

Section Outputs.
Context {T : Type} `{TensorOps T}.

Lemma loss_key_inj (l1 l2 : Model.Loss T) :
  loss_key l1 = loss_key l2 -> Model.loss_name l1 = Model.loss_name l2.
Proof. unfold loss_key. simpl. intros [= Heq]. exact Heq. Qed.

Lemma for_each_cons {St X Acc : Type} (body : Acc -> X -> M St Acc)
    (x : X) (xs : list X) (acc : Acc) (s : St) :
  Model.for_each body (x :: xs) acc s =
  match body acc x s with
  | (Ok acc', s') => Model.for_each body xs acc' s'
  | (Err e, s') => (Err e, s')
  end.
Proof. reflexivity. Qed.

Lemma loss_body_run (features : gmap string (Model.value T))
    (audio audio_gen : Model.value T) (l : Model.Loss T)
    (total : T) (loss_dict : gmap string (Model.value T))
    (tb_metrics : gmap string T) :
  features !! "audio" = Some audio ->
  let term := Model.loss_call l audio audio_gen in
  Model.loss_body features audio_gen (total, loss_dict) l tb_metrics =
    (Ok (t_add total term, <[loss_key l := Model.VTensor term]> loss_dict),
     <[loss_key l := t_expand_dims (t_reduce_mean term)]> tb_metrics).
Proof.
  intros Haudio. unfold Model.loss_body, bind, lift, ret, Model.getitem,
    Model.add_tb_metric.
  rewrite Haudio. reflexivity.
Qed.

Lemma for_each_losses (features : gmap string (Model.value T))
    (audio audio_gen : Model.value T) (ls : list (Model.Loss T))
    (total : T) (loss_dict : gmap string (Model.value T))
    (tb_metrics : gmap string T) :
  features !! "audio" = Some audio ->
  let term := fun l => Model.loss_call l audio audio_gen in
  Model.for_each (Model.loss_body features audio_gen) ls (total, loss_dict) tb_metrics =
    (Ok (fold_left t_add (map term ls) total, record_losses term ls loss_dict),
     record_metrics term ls tb_metrics).
Proof.
  intros Haudio term. revert total loss_dict tb_metrics.
  induction ls as [|l ls IH]; intros total loss_dict tb_metrics.
  - reflexivity.
  - rewrite for_each_cons.
    rewrite (loss_body_run features audio audio_gen l _ _ _ Haudio).
    exact (IH _ _ _).
Qed.

(** A key no loss writes keeps its entry. *)
Lemma record_losses_other (term : Model.Loss T -> T) ls loss_dict key :
  (forall l, l ∈ ls -> loss_key l <> key) ->
  record_losses term ls loss_dict !! key = loss_dict !! key.
Proof.
  revert loss_dict. induction ls as [|l ls IH]; intros loss_dict Hother; simpl.
  - reflexivity.
  - unfold record_losses in *. simpl. rewrite IH.
    + apply lookup_insert_ne, Hother. left.
    + intros l' Hl'. apply Hother. right. exact Hl'.
Qed.

(** The last loss of a name leaves its term under its key. *)
Lemma record_losses_last (term : Model.Loss T -> T) ls loss_dict i l :
  ls !! i = Some l ->
  (forall j l', (i < j)%nat -> ls !! j = Some l' ->
     Model.loss_name l' <> Model.loss_name l) ->
  record_losses term ls loss_dict !! loss_key l = Some (Model.VTensor (term l)).
Proof.
  revert loss_dict i. induction ls as [|l0 ls IH]; intros loss_dict i Hi Hlast.
  - discriminate.
  - destruct i as [|i]; simpl in Hi.
    + injection Hi as ->. unfold record_losses. simpl.
      fold (record_losses term ls (<[loss_key l := Model.VTensor (term l)]> loss_dict)).
      rewrite record_losses_other; [apply lookup_insert_eq|].
      intros l' Hl' Hkey. apply list_elem_of_lookup in Hl' as [j Hj].
      apply (Hlast (S j) l'); [lia|exact Hj|]. apply loss_key_inj, Hkey.
    + unfold record_losses. simpl. apply (IH _ i Hi).
      intros j l' Hij Hj. apply (Hlast (S j) l'); [lia|exact Hj].
Qed.

(** Under a key, the loop leaves what was there or the term of a loss
    of that key. *)
Lemma record_losses_cases (term : Model.Loss T -> T) ls loss_dict key :
  record_losses term ls loss_dict !! key = loss_dict !! key \/
  exists l, l ∈ ls /\ loss_key l = key /\
    record_losses term ls loss_dict !! key = Some (Model.VTensor (term l)).
Proof.
  revert loss_dict. induction ls as [|l0 ls IH]; intros loss_dict.
  - left. reflexivity.
  - unfold record_losses. simpl.
    fold (record_losses term ls (<[loss_key l0 := Model.VTensor (term l0)]> loss_dict)).
    destruct (IH (<[loss_key l0 := Model.VTensor (term l0)]> loss_dict))
      as [Hsame|(l & Hl & Hkey & Hval)].
    + rewrite Hsame. destruct (decide (loss_key l0 = key)) as [<-|Hne].
      * right. exists l0. split; [left|]. split; [reflexivity|].
        apply lookup_insert_eq.
      * left. apply lookup_insert_ne, Hne.
    + right. exists l. split; [right; exact Hl|]. split; assumption.
Qed.

(** Every loss finds, under its key, the term of a loss of its name. *)
Lemma record_losses_some (term : Model.Loss T -> T) ls loss_dict l :
  l ∈ ls ->
  exists l', l' ∈ ls /\ Model.loss_name l' = Model.loss_name l /\
    record_losses term ls loss_dict !! loss_key l = Some (Model.VTensor (term l')).
Proof.
  revert loss_dict. induction ls as [|l0 ls IH]; intros loss_dict Hl.
  - apply elem_of_nil in Hl as [].
  - apply elem_of_cons in Hl as [->|Hl].
    + destruct (record_losses_cases term ls
                  (<[loss_key l0 := Model.VTensor (term l0)]> loss_dict)
                  (loss_key l0)) as [Hsame|(l & Hl & Hkey & Hval)].
      * exists l0. split; [left|]. split; [reflexivity|].
        unfold record_losses in *. simpl. rewrite Hsame. apply lookup_insert_eq.
      * exists l. split; [right; exact Hl|].
        split; [apply loss_key_inj, Hkey|exact Hval].
    + destruct (IH (<[loss_key l0 := Model.VTensor (term l0)]> loss_dict) Hl)
        as (l' & Hl' & Hname & Hval).
      exists l'. split; [right; exact Hl'|]. split; [exact Hname|exact Hval].
Qed.

(** C4, as the code has it.  With a decoder and a processor group, an
    ['audio'] feature and the group's ['signal'] among its outputs,
    [get_outputs] returns a dictionary that holds the signal under
    ['audio_gen'], under ['total_loss'] the loss terms added up from [0.0]
    in the order of the loss sequence, and under ['losses/<name>'] the term
    of the last loss of that name; so every loss has its key, and its own
    term there when no later loss shares its name. *)
Theorem get_outputs_returns (self : Model.t T)
    (features : gmap string (Model.value T)) (is_training : bool)
    (tb_metrics : gmap string T)
    (dec : gmap string (Model.value T) -> gmap string (Model.value T))
    (group : Model.ProcessorGroup T) (audio audio_gen : Model.value T) :
  Model.decoder self = Some dec ->
  Model.processor_group self = Some group ->
  features !! "audio" = Some audio ->
  let conditioning := Model.preprocessor self features is_training in
  let conditioning := match Model.encoder self with
                      | Some enc => enc conditioning
                      | None => conditioning
                      end in
  Model.lookup_signal (Model.pg_get_outputs group (dec conditioning))
                      (Model.pg_name group) = Ok audio_gen ->
  let term := fun l => Model.loss_call l audio audio_gen in
  exists outputs tb_metrics',
    Model.get_outputs self features is_training tb_metrics = (Ok outputs, tb_metrics') /\
    outputs !! "audio_gen" = Some audio_gen /\
    outputs !! "total_loss" =
      Some (Model.VTensor (fold_left t_add (map term (Model.losses self)) t_zero)) /\
    (forall l, l ∈ Model.losses self ->
       exists l', l' ∈ Model.losses self /\
         Model.loss_name l' = Model.loss_name l /\
         outputs !! loss_key l = Some (Model.VTensor (term l'))) /\
    (forall i l, Model.losses self !! i = Some l ->
       (forall j l', (i < j)%nat -> Model.losses self !! j = Some l' ->
          Model.loss_name l' <> Model.loss_name l) ->
       outputs !! loss_key l = Some (Model.VTensor (term l))).
Proof.
  intros Hdec Hgroup Haudio cond0 cond1 Hsignal term.
  unfold Model.get_outputs. fold cond0. fold cond1.
  unfold bind at 1. rewrite Hdec. unfold ret at 1.
  unfold bind at 1. rewrite Hgroup. unfold ret at 1.
  unfold bind at 1. rewrite Hsignal. unfold lift at 1.
  unfold bind at 1.
  rewrite (for_each_losses features audio audio_gen _ _ _ _ Haudio).
  fold term. unfold bind, ret, Model.add_tb_metric. simpl.
  eexists. eexists. split; [reflexivity|].
  assert (Hlast : forall i l, Model.losses self !! i = Some l ->
    (forall j l', (i < j)%nat -> Model.losses self !! j = Some l' ->
       Model.loss_name l' <> Model.loss_name l) ->
    (<["total_loss" := Model.VTensor
         (fold_left t_add (map term (Model.losses self)) t_zero)]>
       (record_losses term (Model.losses self) ∅ ∪
        <["audio_gen" := audio_gen]> (Model.pg_get_outputs group (dec cond1))))
      !! loss_key l = Some (Model.VTensor (term l))).
  { intros i l Hi Hl. rewrite lookup_insert_ne by (unfold loss_key; discriminate).
    apply lookup_union_Some_l. eapply record_losses_last; eassumption. }
  split; [|split; [|split]].
  - rewrite lookup_insert_ne by discriminate.
    rewrite lookup_union_r; [apply lookup_insert_eq|].
    rewrite record_losses_other; [apply lookup_empty|].
    intros l _. unfold loss_key. discriminate.
  - apply lookup_insert_eq.
  - intros l Hl.
    destruct (record_losses_some term _ ∅ l Hl) as (l' & Hl' & Hname & Hval).
    exists l'. split; [exact Hl'|]. split; [exact Hname|].
    rewrite lookup_insert_ne by (unfold loss_key; discriminate).
    apply lookup_union_Some_l, Hval.
  - exact Hlast.
Qed.
End Outputs.

(** * Instances *)

Section Instances.
Import Examples.

(** The failing input of C1: a fundamental of 10 kHz at a sample rate of
    16 kHz puts both harmonics above 8 kHz. *)
Lemma get_controls_nan_above_nyquist_witness :
  exists c out,
    Additive.get_controls (A := spec_float) additive_unscaled
      (one_frame [1]) (one_frame [1; 1]) (one_frame [10000]) tt = (Ok c, tt) /\
    c !! "harmonic_distribution" = Some out /\
    forall k, (k < 2)%nat ->
      exists v, tget out 0 0 k = Some v /\ Float32.is_nan v = true.
Proof.
  apply (get_controls_nan_above_nyquist additive_unscaled
           (one_frame [1]) (one_frame [1; 1]) (one_frame [10000])
           (one_frame [1]) (one_frame [1; 1]) tt tt 1 1 2 0 0 (of_int 10000));
    try reflexivity.
  intros [|[|k]] Hk; [reflexivity|reflexivity|lia].
Defined.



Lemma get_controls_bandlimits_witness :
  exists pre c,
    Additive.get_controls (A := spec_float) additive_unscaled
      (one_frame [1]) (one_frame [1; 1]) (one_frame [5000]) tt = (Ok c, tt) /\
    c !! "harmonic_distribution" = Some (Additive.normalize pre) /\
    forall b t k f0 x,
      tget (one_frame (A := spec_float) [5000]) b t 0 = Some f0 ->
      tget (one_frame (A := spec_float) [1; 1]) b t k = Some x ->
      tget pre b t k =
        Some (if fgreater (harmonic_frequency f0 k) (nyquist 16000)
              then fzero else x).
Proof.
  apply (get_controls_bandlimits additive_unscaled
           (one_frame [1]) (one_frame [1; 1]) (one_frame [5000])
           (one_frame [1]) (one_frame [1; 1]) tt tt 1 1 2); reflexivity.
Defined.

Lemma get_controls_keeps_f0_hz_witness :
  controls (A := spec_float) (one_frame [1]) [[[of_int 1; fzero]]] (one_frame [5000])
    !! "f0_hz" = Some (one_frame [5000]).
Proof.
  apply (get_controls_keeps_f0_hz additive_unscaled
           (one_frame [1]) (one_frame [1; 1]) (one_frame [5000]) tt tt).
  reflexivity.
Defined.

(** The input against C8: a magnitude and an amplitude of [-1] with no
    scaling function come back as they are, in a dictionary. *)
Lemma unscaled_negative_controls_returned :
  FilteredNoise.get_controls (A := spec_float) noise_unscaled (one_frame [-1]) tt =
    (Ok (<["magnitudes" := one_frame [-1]]> ∅), tt) /\
  Additive.get_controls (A := spec_float) additive_unscaled
      (one_frame [-1]) (one_frame [1; 1]) (one_frame [100]) tt =
    (Ok (controls (one_frame [-1])
                  [[[fdiv (of_int 1) (of_int 2); fdiv (of_int 1) (of_int 2)]]]
                  (one_frame [100])), tt) /\
  fst (FilteredNoise.get_controls (A := spec_float) noise_unscaled
         (one_frame [-1]) tt) <> Err InvalidControlError /\
  fst (Additive.get_controls (A := spec_float) additive_unscaled
         (one_frame [-1]) (one_frame [1; 1]) (one_frame [100]) tt)
    <> Err InvalidControlError.
Proof. repeat split; try reflexivity; vm_compute; discriminate. Qed.

Lemma unscaled_controls_pass_through_witness :
  FilteredNoise.get_controls (A := spec_float) noise_unscaled (one_frame [-1]) tt =
    (Ok (<["magnitudes" := one_frame [-1]]> ∅), tt) /\
  fst (Additive.get_controls (A := spec_float) additive_unscaled
         (one_frame [-1]) (one_frame [1; 1]) (one_frame [100]) tt)
    <> Err InvalidControlError /\
  snd (Additive.get_controls (A := spec_float) additive_unscaled
         (one_frame [-1]) (one_frame [1; 1]) (one_frame [100]) tt) = tt /\
  forall c,
    fst (Additive.get_controls (A := spec_float) additive_unscaled
           (one_frame [-1]) (one_frame [1; 1]) (one_frame [100]) tt) = Ok c ->
    c !! "amplitudes" = Some (one_frame [-1]).
Proof.
  apply (unscaled_controls_pass_through noise_unscaled additive_unscaled);
    reflexivity.
Defined.

Lemma get_controls_deterministic_witness :
  (forall s1 s2,
     fst (Additive.get_controls (A := spec_float) additive_doubling
            (one_frame [1]) (one_frame [1; 1]) (one_frame [5000]) s1) =
     fst (Additive.get_controls additive_doubling
            (one_frame [1]) (one_frame [1; 1]) (one_frame [5000]) s2)) /\
  (forall s1 s2,
     fst (FilteredNoise.get_controls (A := spec_float) noise_doubling
            (one_frame [1; 2]) s1) =
     fst (FilteredNoise.get_controls noise_doubling (one_frame [1; 2]) s2)).
Proof.
  apply (get_controls_deterministic additive_doubling noise_doubling).
  - intros fn y [= <-] s1 s2. reflexivity.
  - intros fn y [= <-] s1 s2. reflexivity.
Defined.

(** The configuration against C4: two losses under the default name.  The
    first has the term [5]; the key holds the term [10] of the second. *)
Lemma get_outputs_duplicate_loss_names :
  let self := model_with [spectral_loss 1; spectral_loss 2] in
  exists outputs tb_metrics,
    Model.get_outputs self features true Model.init_tb_metrics =
      (Ok outputs, tb_metrics) /\
    outputs !! "audio_gen" = Some (Model.VTensor 7) /\
    Model.losses self !! 0%nat = Some (spectral_loss 1) /\
    Model.loss_call (spectral_loss 1) (Model.VTensor 2) (Model.VTensor 7) = 5 /\
    outputs !! ("losses/" +:+ Model.loss_name (spectral_loss 1)) =
      Some (Model.VTensor 10) /\
    outputs !! ("losses/" +:+ Model.loss_name (spectral_loss 1)) <>
      Some (Model.VTensor
              (Model.loss_call (spectral_loss 1) (Model.VTensor 2) (Model.VTensor 7))).
Proof.
  eexists. eexists. split; [vm_compute; reflexivity|].
  repeat split; try reflexivity. vm_compute. discriminate.
Qed.

Lemma get_outputs_returns_witness :
  let self := model_with [spectral_loss 1; embedding_loss] in
  let term := fun l => Model.loss_call l (Model.VTensor 2) (Model.VTensor 7) in
  exists outputs tb_metrics',
    Model.get_outputs self features true Model.init_tb_metrics =
      (Ok outputs, tb_metrics') /\
    outputs !! "audio_gen" = Some (Model.VTensor 7) /\
    outputs !! "total_loss" =
      Some (Model.VTensor (fold_left t_add (map term (Model.losses self)) t_zero)) /\
    (forall l, l ∈ Model.losses self ->
       exists l', l' ∈ Model.losses self /\
         Model.loss_name l' = Model.loss_name l /\
         outputs !! loss_key l = Some (Model.VTensor (term l'))) /\
    (forall i l, Model.losses self !! i = Some l ->
       (forall j l', (i < j)%nat -> Model.losses self !! j = Some l' ->
          Model.loss_name l' <> Model.loss_name l) ->
       outputs !! loss_key l = Some (Model.VTensor (term l))).
Proof.
  intros self.
  apply (get_outputs_returns self features true Model.init_tb_metrics
           (fun conditioning => conditioning) group
           (Model.VTensor 2) (Model.VTensor 7)); reflexivity.
Defined.

(** The input against C6: no checkpoint under the expanded directory. *)
Lemma restore_raises_value_error :
  Model.latest_checkpoint empty_disk
    (Model.expanduser empty_disk (Model.expandvars empty_disk "~/ckpt")) = None /\
  Model.expanduser empty_disk (Model.expandvars empty_disk "~/ckpt") =
    "/home/user/ckpt" /\
  Model.restore empty_disk (model_with [embedding_loss])
    [embedding_variable; decoder_variable] tt "~/ckpt" = Err ValueError /\
  Model.restore empty_disk (model_with [embedding_loss])
    [embedding_variable; decoder_variable] tt "~/ckpt" <> Err CheckpointNotFoundError.
Proof. repeat split; try reflexivity. vm_compute. discriminate. Qed.

Lemma restore_without_checkpoint_witness :
  Model.restore empty_disk (model_with [embedding_loss])
    [embedding_variable; decoder_variable] tt "~/ckpt" = Err ValueError.
Proof.
  apply (restore_without_checkpoint empty_disk (model_with [embedding_loss])
           [embedding_variable; decoder_variable] tt "~/ckpt").
  reflexivity.
Defined.

(** The configuration against C7: [Model()] is constructed, and its first
    [get_outputs] ends with a [TypeError]. *)
Lemma bare_model_raises_type_error :
  Model.decoder bare_model = None /\
  Model.processor_group bare_model = None /\
  Model.get_outputs bare_model features true Model.init_tb_metrics =
    (Err TypeError, Model.init_tb_metrics) /\
  fst (Model.get_outputs bare_model features true Model.init_tb_metrics)
    <> Err MisconfiguredModelError.
Proof. repeat split; try reflexivity. vm_compute. discriminate. Qed.

Lemma get_outputs_without_collaborator_witness :
  Model.get_outputs bare_model features true Model.init_tb_metrics =
    (Err TypeError, Model.init_tb_metrics).
Proof.
  apply (get_outputs_without_collaborator bare_model features true
           Model.init_tb_metrics).
  left. reflexivity.
Defined.
End Instances.

(** * Further properties *)

(** ** Shapes through [Additive.get_controls] *)

Section Shapes.
Context {St A : Type} `{Elem A}.

Lemma zip_exact_Forall {X Y V : Type} (f : X -> Y -> result V)
    (P : Y -> Prop) (R : V -> Prop) xs ys zs :
  (forall x y z, f x y = Ok z -> P y -> R z) ->
  zip_exact f xs ys = Ok zs -> Forall P ys ->
  length zs = length ys /\ Forall R zs.
Proof.
  intros Hf. revert ys zs.
  induction xs as [|x xs IH]; intros [|y ys] zs; simpl; try discriminate.
  - intros [= <-] _. split; [reflexivity|constructor].
  - destruct (f x y) as [z|e] eqn:Hxy; simpl; [|discriminate].
    destruct (zip_exact f xs ys) as [zs'|e] eqn:Hz; simpl; [|discriminate].
    intros [= <-] Hys. apply Forall_cons in Hys as [Hy Hys].
    destruct (IH ys zs' Hz Hys) as [Hl HR]. split.
    + simpl. f_equal. exact Hl.
    + constructor; [eapply Hf; eassumption|exact HR].
Qed.

Lemma bandlimit_keeps_shape (self : Additive.t St A) hd f0_hz pre nb nt nc :
  Additive.bandlimit self hd f0_hz = Ok pre ->
  has_shape nb nt nc hd = true -> has_shape nb nt nc pre = true.
Proof.
  unfold Additive.bandlimit.
  destruct (Additive.normalize_below_nyquist self); [|intros [= <-]; trivial].
  destruct (core.get_harmonic_frequencies _ _) as [hf|e]; simpl; [|discriminate].
  unfold core.remove_above_nyquist. intros Hz Hhd.
  apply has_shape_spec in Hhd as [Hnb Hhd]. apply has_shape_spec.
  eapply (zip_exact_Forall _ _
            (fun m => length m = nt /\ Forall (fun r => length r = nc) m))
    in Hz as [Hl Hpre]; [| |exact Hhd].
  - split; [congruence|exact Hpre].
  - intros fm m pm Hm [Hnt Hm'].
    eapply (zip_exact_Forall _ _ (fun r => length r = nc)) in Hm as [Hl Hpm];
      [| |exact Hm'].
    + split; [congruence|exact Hpm].
    + intros fr r z Hr Hnc.
      eapply (zip_exact_Forall _ (fun _ => True) (fun _ => True)) in Hr as [Hl _].
      * congruence.
      * trivial.
      * apply Forall_forall. trivial.
Qed.

Lemma normalize_keeps_shape (x : tensor A) nb nt nc :
  has_shape nb nt nc x = true ->
  has_shape nb nt nc (Additive.normalize x) = true.
Proof.
  intros Hx. apply has_shape_spec in Hx as [Hnb Hx]. apply has_shape_spec.
  unfold Additive.normalize, map_frames. split.
  - rewrite length_map. exact Hnb.
  - apply Forall_fmap. eapply Forall_impl; [exact Hx|].
    intros m [Hnt Hm]. simpl. split.
    + rewrite length_map. exact Hnt.
    + apply Forall_fmap. eapply Forall_impl; [exact Hm|].
      intros r Hr. simpl. rewrite length_map. exact Hr.
Qed.

(** X1.  Whenever [Additive.get_controls] returns, the
    ['harmonic_distribution'] it returns has the shape
    [[batch, time, n_harmonics]] of the scaled harmonic distribution:
    bandlimiting and normalization add and drop no entry. *)
Theorem get_controls_keeps_shape (self : Additive.t St A)
    (a h f0_hz : tensor A) (s s1 : St) (c : gmap string (tensor A))
    (nb nt nc : nat) :
  Additive.get_controls self a h f0_hz s = (Ok c, s1) ->
  exists a' h' out,
    Additive.scale self a h s = (Ok (a', h'), s1) /\
    c !! "harmonic_distribution" = Some out /\
    (has_shape nb nt nc h' = true -> has_shape nb nt nc out = true).
Proof.
  intros Hrun. apply get_controls_inv in Hrun as (a' & h' & pre & Hs & Hb & ->).
  exists a', h', (Additive.normalize pre).
  split; [exact Hs|]. split; [apply controls_lookup|].
  intros Hh. apply normalize_keeps_shape.
  eapply bandlimit_keeps_shape; eassumption.
Qed.

(** X2.  With [normalize_below_nyquist] off, [f0_hz] is handed through
    unread: a call that returns for one [f0_hz] returns for any other, of
    whatever shape, and the two dictionaries differ in the ['f0_hz'] entry
    alone. *)
Theorem get_controls_ignores_f0_hz (self : Additive.t St A)
    (a h f0_hz f0_hz' : tensor A) (s s1 : St) (c : gmap string (tensor A)) :
  Additive.normalize_below_nyquist self = false ->
  Additive.get_controls self a h f0_hz s = (Ok c, s1) ->
  Additive.get_controls self a h f0_hz' s = (Ok (<["f0_hz" := f0_hz']> c), s1).
Proof.
  intros Hoff Hrun.
  apply get_controls_inv in Hrun as (a' & h' & pre & Hs & Hb & ->).
  assert (Hb' : Additive.bandlimit self h' f0_hz' = Ok pre).
  { revert Hb. unfold Additive.bandlimit. rewrite Hoff. trivial. }
  rewrite (get_controls_run _ _ _ _ _ _ _ _ _ Hs Hb').
  apply (f_equal (fun m => (Ok m, s1))).
  unfold controls. apply map_eq. intros k.
  destruct (decide (k = "f0_hz")) as [->|Hk].
  - rewrite lookup_insert_eq. simplify_map_eq. reflexivity.
  - rewrite (lookup_insert_ne _ "f0_hz" k) by congruence.
    destruct (decide (k = "amplitudes")) as [->|Ha]; [simplify_map_eq; reflexivity|].
    destruct (decide (k = "harmonic_distribution")) as [->|Hh];
      simplify_map_eq; reflexivity.
Qed.
End Shapes.

(** ** Normalization in binary32 *)

Section Binary32.
Context {St : Type}.


Lemma fadd_nan_l (y : spec_float) : fadd S754_nan y = S754_nan.
Proof. reflexivity. Qed.

Lemma fadd_nan_r (x : spec_float) : fadd x S754_nan = S754_nan.
Proof. destruct x; reflexivity. Qed.

Lemma fdiv_nan_r (x : spec_float) : fdiv x S754_nan = S754_nan.
Proof. destruct x; reflexivity. Qed.

Lemma fold_fadd_nan (r : frame spec_float) :
  fold_left fadd r S754_nan = S754_nan.
Proof. induction r as [|x r IH]; simpl; [reflexivity|exact IH]. Qed.

Lemma reduce_sum_nan (r : frame spec_float) :
  S754_nan ∈ r -> tf.reduce_sum r = S754_nan.
Proof.
  unfold tf.reduce_sum. generalize (fzero : spec_float).
  induction r as [|x r IH]; intros acc Hin.
  - apply elem_of_nil in Hin as [].
  - apply elem_of_cons in Hin as [<-|Hin]; simpl.
    + change (SFadd Float32.prec Float32.emax acc S754_nan) with (fadd acc S754_nan).
      rewrite fadd_nan_r. apply fold_fadd_nan.
    + apply IH, Hin.
Qed.


(** X4.  In binary32, whenever [Additive.get_controls] returns, a frame
    that holds a NaN before normalization comes back with NaN at every
    entry: the sum of the frame is NaN and so is every quotient by it. *)
Theorem nan_spreads_over_frame (self : Additive.t St spec_float)
    (a h f0_hz : tensor spec_float) (s s1 : St)
    (c : gmap string (tensor spec_float)) :
  Additive.get_controls self a h f0_hz s = (Ok c, s1) ->
  exists a' h' pre out,
    Additive.scale self a h s = (Ok (a', h'), s1) /\
    Additive.bandlimit self h' f0_hz = Ok pre /\
    c !! "harmonic_distribution" = Some out /\
    forall b t r,
      tframe pre b t = Some r -> S754_nan ∈ r ->
      tframe out b t = Some (replicate (length r) S754_nan).
Proof.
  intros Hrun. apply get_controls_inv in Hrun as (a' & h' & pre & Hs & Hb & ->).
  exists a', h', pre, (Additive.normalize pre).
  split; [exact Hs|]. split; [exact Hb|]. split; [apply controls_lookup|].
  intros b t r Hr Hnan. rewrite tframe_normalize, Hr. simpl. f_equal.
  rewrite (reduce_sum_nan r Hnan). clear Hr Hnan.
  induction r as [|x r IH]; simpl; [reflexivity|].
  rewrite IH. f_equal. apply fdiv_nan_r.
Qed.

End Binary32.

(** ** Normalization in exact arithmetic *)

Section Distribution.
Context {St : Type}.




End Distribution.

(** ** The forward pass, run *)

Section Forward.
Context {T : Type} `{TensorOps T}.

Lemma fold_insert_other {X V : Type} (key : X -> string) (val : X -> V)
    (ls : list X) (m : gmap string V) (k : string) :
  (forall l, l ∈ ls -> key l <> k) ->
  fold_left (fun m l => <[key l := val l]> m) ls m !! k = m !! k.
Proof.
  revert m. induction ls as [|l ls IH]; intros m Hother; simpl.
  - reflexivity.
  - rewrite IH.
    + apply lookup_insert_ne, Hother. left.
    + intros l' Hl'. apply Hother. right. exact Hl'.
Qed.

Lemma fold_insert_last {X V : Type} (key : X -> string) (val : X -> V)
    (ls : list X) (m : gmap string V) (i : nat) (l : X) :
  ls !! i = Some l ->
  (forall j l', (i < j)%nat -> ls !! j = Some l' -> key l' <> key l) ->
  fold_left (fun m l => <[key l := val l]> m) ls m !! key l = Some (val l).
Proof.
  revert m i. induction ls as [|l0 ls IH]; intros m i Hi Hlast.
  - discriminate.
  - destruct i as [|i]; simpl in Hi |- *.
    + injection Hi as ->. rewrite fold_insert_other; [apply lookup_insert_eq|].
      intros l' Hl'. apply list_elem_of_lookup in Hl' as [j Hj].
      apply (Hlast (S j) l'); [lia|exact Hj].
    + apply (IH _ i Hi). intros j l' Hij Hj.
      apply (Hlast (S j) l'); [lia|exact Hj].
Qed.



Lemma loss_key_not_reserved (l : Model.Loss T) :
  loss_key l <> "audio_gen" /\ loss_key l <> "total_loss" /\
  loss_key l <> "loss" /\ loss_key l <> "global_step".
Proof. unfold loss_key. repeat split; discriminate. Qed.

(** What [get_outputs] returns and registers once its collaborators are
    there, the features hold ['audio'] and the group renders a signal. *)
Lemma get_outputs_run (self : Model.t T)
    (features : gmap string (Model.value T)) (is_training : bool)
    (tb_metrics : gmap string T)
    (dec : gmap string (Model.value T) -> gmap string (Model.value T))
    (group : Model.ProcessorGroup T) (audio audio_gen : Model.value T) :
  Model.decoder self = Some dec ->
  Model.processor_group self = Some group ->
  features !! "audio" = Some audio ->
  Model.lookup_signal
    (Model.pg_get_outputs group (dec (encoded self features is_training)))
    (Model.pg_name group) = Ok audio_gen ->
  let term := fun l => Model.loss_call l audio audio_gen in
  Model.get_outputs self features is_training tb_metrics =
    (Ok (<["total_loss" := Model.VTensor (total_of term (Model.losses self))]>
           (record_losses term (Model.losses self) ∅ ∪
            <["audio_gen" := audio_gen]>
              (Model.pg_get_outputs group (dec (encoded self features is_training))))),
     register_metrics term (Model.losses self) tb_metrics).
Proof.
  intros Hdec Hgroup Haudio Hsignal term.
  unfold Model.get_outputs. fold (encoded self features is_training).
  unfold bind at 1. rewrite Hdec. unfold ret at 1.
  unfold bind at 1. rewrite Hgroup. unfold ret at 1.
  unfold bind at 1. rewrite Hsignal. unfold lift at 1.
  unfold bind at 1.
  rewrite (for_each_losses features audio audio_gen _ _ _ _ Haudio).
  reflexivity.
Qed.

(** X7.  A forward pass that goes through registers, in [tb_metrics],
    the total loss under ['loss'], the global step under ['global_step']
    and, under ['losses/<name>'], the term of the last loss of that name,
    each as [expand_dims(reduce_mean(_), 0)]; the metrics under every
    other name stay as they were. *)
Theorem get_outputs_registers_metrics (self : Model.t T)
    (features : gmap string (Model.value T)) (is_training : bool)
    (tb_metrics : gmap string T)
    (dec : gmap string (Model.value T) -> gmap string (Model.value T))
    (group : Model.ProcessorGroup T) (audio audio_gen : Model.value T) :
  Model.decoder self = Some dec ->
  Model.processor_group self = Some group ->
  features !! "audio" = Some audio ->
  Model.lookup_signal
    (Model.pg_get_outputs group (dec (encoded self features is_training)))
    (Model.pg_name group) = Ok audio_gen ->
  let term := fun l => Model.loss_call l audio audio_gen in
  let metric := fun x => t_expand_dims (t_reduce_mean x) in
  exists outputs tb_metrics',
    Model.get_outputs self features is_training tb_metrics = (Ok outputs, tb_metrics') /\
    tb_metrics' !! "loss" = Some (metric (total_of term (Model.losses self))) /\
    tb_metrics' !! "global_step" = Some (metric t_global_step) /\
    (forall i l, Model.losses self !! i = Some l ->
       (forall j l', (i < j)%nat -> Model.losses self !! j = Some l' ->
          Model.loss_name l' <> Model.loss_name l) ->
       tb_metrics' !! loss_key l = Some (metric (term l))) /\
    (forall k, k <> "loss" -> k <> "global_step" ->
       (forall l, l ∈ Model.losses self -> loss_key l <> k) ->
       tb_metrics' !! k = tb_metrics !! k).
Proof.
  intros Hdec Hgroup Haudio Hsignal term metric.
  eexists. eexists.
  split; [apply (get_outputs_run self features is_training tb_metrics dec group
                   audio audio_gen Hdec Hgroup Haudio Hsignal)|].
  fold term. unfold register_metrics, record_metrics.
  split; [|split; [|split]].
  - rewrite lookup_insert_ne by discriminate. apply lookup_insert_eq.
  - apply lookup_insert_eq.
  - intros i l Hi Hlast.
    destruct (loss_key_not_reserved l) as (_ & _ & Hl1 & Hl2).
    rewrite lookup_insert_ne by congruence.
    rewrite lookup_insert_ne by congruence.
    apply (fold_insert_last loss_key (fun l => t_expand_dims (t_reduce_mean (term l)))
             _ _ i l Hi).
    intros j l' Hij Hj Hkey. apply (Hlast j l' Hij Hj), loss_key_inj, Hkey.
  - intros k Hk1 Hk2 Hother.
    rewrite lookup_insert_ne by congruence.
    rewrite lookup_insert_ne by congruence.
    apply fold_insert_other, Hother.
Qed.

(** X8.  A forward pass that goes through hands back what the processor
    group returned under every key but ['audio_gen'], ['total_loss'] and
    the keys of the losses. *)
Theorem get_outputs_keeps_group_outputs (self : Model.t T)
    (features : gmap string (Model.value T)) (is_training : bool)
    (tb_metrics : gmap string T)
    (dec : gmap string (Model.value T) -> gmap string (Model.value T))
    (group : Model.ProcessorGroup T) (audio audio_gen : Model.value T) :
  Model.decoder self = Some dec ->
  Model.processor_group self = Some group ->
  features !! "audio" = Some audio ->
  Model.lookup_signal
    (Model.pg_get_outputs group (dec (encoded self features is_training)))
    (Model.pg_name group) = Ok audio_gen ->
  exists outputs tb_metrics',
    Model.get_outputs self features is_training tb_metrics = (Ok outputs, tb_metrics') /\
    forall k, k <> "audio_gen" -> k <> "total_loss" ->
      (forall l, l ∈ Model.losses self -> loss_key l <> k) ->
      outputs !! k =
        Model.pg_get_outputs group (dec (encoded self features is_training)) !! k.
Proof.
  intros Hdec Hgroup Haudio Hsignal.
  eexists. eexists.
  split; [apply (get_outputs_run self features is_training tb_metrics dec group
                   audio audio_gen Hdec Hgroup Haudio Hsignal)|].
  intros k Hk1 Hk2 Hother.
  rewrite lookup_insert_ne by congruence.
  rewrite lookup_union_r.
  - apply lookup_insert_ne. congruence.
  - rewrite record_losses_other; [apply lookup_empty|exact Hother].
Qed.

End Forward.

(** ** The forward pass, failing *)

Section ForwardErrors.
Context {T : Type} `{TensorOps T}.

Lemma init_losses_cons
    (DefaultPreprocessor : gmap string (Model.value T) -> bool -> gmap string (Model.value T))
    (SpectralLoss : Model.Loss T) preprocessor encoder decoder processor_group losses :
  exists l ls,
    Model.losses (Model.init DefaultPreprocessor SpectralLoss preprocessor
                    encoder decoder processor_group losses) = l :: ls.
Proof.
  destruct losses as [[|l ls]|]; simpl; eauto.
Qed.

(** X10.  A model built by [__init__], whatever [losses] it was given,
    never gets through a forward pass on features without ['audio']: its
    loss list is never empty, and with the decoder and the processor group
    in place and the signal rendered, [get_outputs] raises [KeyError] at
    the first loss, before any metric is registered. *)
Theorem get_outputs_without_audio
    (DefaultPreprocessor : gmap string (Model.value T) -> bool -> gmap string (Model.value T))
    (SpectralLoss : Model.Loss T)
    (preprocessor : option (gmap string (Model.value T) -> bool -> gmap string (Model.value T)))
    (encoder : option (gmap string (Model.value T) -> gmap string (Model.value T)))
    (dec : gmap string (Model.value T) -> gmap string (Model.value T))
    (group : Model.ProcessorGroup T) (losses : option (list (Model.Loss T)))
    (features : gmap string (Model.value T)) (is_training : bool)
    (tb_metrics : gmap string T) (audio_gen : Model.value T) :
  let self := Model.init DefaultPreprocessor SpectralLoss preprocessor encoder
                         (Some dec) (Some group) losses in
  features !! "audio" = None ->
  Model.lookup_signal
    (Model.pg_get_outputs group (dec (encoded self features is_training)))
    (Model.pg_name group) = Ok audio_gen ->
  Model.get_outputs self features is_training tb_metrics = (Err KeyError, tb_metrics).
Proof.
  intros self Haudio Hsignal.
  destruct (init_losses_cons DefaultPreprocessor SpectralLoss preprocessor
              encoder (Some dec) (Some group) losses) as (l & ls & Hlosses).
  fold self in Hlosses.
  unfold Model.get_outputs. fold (encoded self features is_training).
  unfold bind at 1. change (Model.decoder self) with (Some dec). unfold ret at 1.
  unfold bind at 1. change (Model.processor_group self) with (Some group).
  unfold ret at 1.
  unfold bind at 1. rewrite Hsignal. unfold lift at 1.
  unfold bind at 1. rewrite Hlosses, for_each_cons.
  unfold Model.loss_body, bind, lift, Model.getitem. rewrite Haudio. reflexivity.
Qed.

(** X11.  With the decoder and the processor group in place, a forward
    pass whose group outputs hold no signal fails before it evaluates a
    loss or registers a metric: with [KeyError] when the entry under the
    group's name, or its ['signal'], is missing, and with [TypeError]
    exactly when that entry is a tensor and not a dictionary. *)
Theorem get_outputs_without_signal (self : Model.t T)
    (features : gmap string (Model.value T)) (is_training : bool)
    (tb_metrics : gmap string T)
    (dec : gmap string (Model.value T) -> gmap string (Model.value T))
    (group : Model.ProcessorGroup T) (e : exn) :
  Model.decoder self = Some dec ->
  Model.processor_group self = Some group ->
  let outputs := Model.pg_get_outputs group (dec (encoded self features is_training)) in
  Model.lookup_signal outputs (Model.pg_name group) = Err e ->
  Model.get_outputs self features is_training tb_metrics = (Err e, tb_metrics) /\
  (e = KeyError \/ e = TypeError) /\
  (e = TypeError <-> exists x, outputs !! Model.pg_name group = Some (Model.VTensor x)).
Proof.
  intros Hdec Hgroup outputs Hsignal. split.
  - unfold Model.get_outputs. fold (encoded self features is_training).
    unfold bind at 1. rewrite Hdec. unfold ret at 1.
    unfold bind at 1. rewrite Hgroup. unfold ret at 1.
    unfold bind at 1. fold outputs. rewrite Hsignal. reflexivity.
  - revert Hsignal. unfold Model.lookup_signal, Model.getitem.
    destruct (outputs !! Model.pg_name group) as [[x|d]|]; simpl.
    + intros [= <-]. split; [right; reflexivity|].
      split; [eauto|reflexivity].
    + destruct (d !! "signal"); [discriminate|]. intros [= <-].
      split; [left; reflexivity|]. split; [discriminate|].
      intros [x Hx]. discriminate.
    + intros [= <-]. split; [left; reflexivity|]. split; [discriminate|].
      intros [x Hx]. discriminate.
Qed.

(** X12.  A model built by [__init__] with [losses] left at [None], or
    given an empty list, computes the one loss [SpectralLoss()]: a forward
    pass that goes through returns [0.0 + SpectralLoss(audio, audio_gen)]
    under ['total_loss'] and that term under ['losses/<its name>']. *)
Theorem get_outputs_default_loss
    (DefaultPreprocessor : gmap string (Model.value T) -> bool -> gmap string (Model.value T))
    (SpectralLoss : Model.Loss T)
    (preprocessor : option (gmap string (Model.value T) -> bool -> gmap string (Model.value T)))
    (encoder : option (gmap string (Model.value T) -> gmap string (Model.value T)))
    (dec : gmap string (Model.value T) -> gmap string (Model.value T))
    (group : Model.ProcessorGroup T) (losses : option (list (Model.Loss T)))
    (features : gmap string (Model.value T)) (is_training : bool)
    (tb_metrics : gmap string T) (audio audio_gen : Model.value T) :
  let self := Model.init DefaultPreprocessor SpectralLoss preprocessor encoder
                         (Some dec) (Some group) losses in
  losses = None \/ losses = Some [] ->
  features !! "audio" = Some audio ->
  Model.lookup_signal
    (Model.pg_get_outputs group (dec (encoded self features is_training)))
    (Model.pg_name group) = Ok audio_gen ->
  exists outputs tb_metrics',
    Model.get_outputs self features is_training tb_metrics = (Ok outputs, tb_metrics') /\
    outputs !! "total_loss" =
      Some (Model.VTensor (t_add t_zero (Model.loss_call SpectralLoss audio audio_gen))) /\
    outputs !! ("losses/" +:+ Model.loss_name SpectralLoss) =
      Some (Model.VTensor (Model.loss_call SpectralLoss audio audio_gen)).
Proof.
  intros self Hdefault Haudio Hsignal.
  assert (Hlosses : Model.losses self = [SpectralLoss]).
  { destruct Hdefault as [-> | ->]; reflexivity. }
  eexists. eexists.
  split; [apply (get_outputs_run self features is_training tb_metrics dec group
                   audio audio_gen eq_refl eq_refl Haudio Hsignal)|].
  rewrite Hlosses. split.
  - apply lookup_insert_eq.
  - rewrite lookup_insert_ne by discriminate.
    apply lookup_union_Some_l. unfold record_losses. simpl.
    apply lookup_insert_eq.
Qed.
End ForwardErrors.

(** ** The variables to optimize, as a list *)

Section Optimized.
Context {T : Type} `{TensorOps T}.

(** Whether [get_variables_to_optimize] drops [x]. *)
Lemma variables_to_optimize_filter (self : Model.t T)
    (all_trainables : list Model.variable) :
  Model.get_variables_to_optimize self all_trainables =
  List.filter (fun x => negb (bool_decide (Model.var_name x ∈ frozen_names self)))
              all_trainables.
Proof.
  unfold Model.get_variables_to_optimize, frozen_names.
  rewrite fold_left_keep, fold_left_extend, pretrained_models_omap. reflexivity.
Qed.

Lemma frozen_names_spec (self : Model.t T) (name : string) :
  name ∈ frozen_names self <-> frozen_name self name.
Proof.
  unfold frozen_names, frozen_name. rewrite list_elem_of_fmap. split.
  - intros (y & Hname & Hy). apply list_elem_of_join in Hy as (vs & Hy & Hvs).
    apply list_elem_of_fmap in Hvs as (m & -> & Hm).
    apply list_elem_of_omap in Hm as (loss_obj & Hloss & Hm).
    exists loss_obj, m, y. repeat split; try assumption. symmetry. exact Hname.
  - intros (loss_obj & m & y & Hloss & Hm & Hy & Hname).
    exists y. split; [symmetry; exact Hname|].
    apply list_elem_of_join. exists (Model.trainable_variables m).
    split; [exact Hy|]. apply list_elem_of_fmap. exists m.
    split; [reflexivity|]. apply list_elem_of_omap. exists loss_obj.
    split; assumption.
Qed.

Lemma filter_sublist_of {X : Type} (keep : X -> bool) (xs : list X) :
  List.filter keep xs `sublist_of` xs.
Proof.
  induction xs as [|x xs IH]; simpl; [constructor|].
  destruct (keep x); [apply sublist_skip|apply sublist_cons]; exact IH.
Qed.

Lemma filter_twice {X : Type} (keep : X -> bool) (xs : list X) :
  List.filter keep (List.filter keep xs) = List.filter keep xs.
Proof.
  induction xs as [|x xs IH]; simpl; [reflexivity|].
  destruct (keep x) eqn:Hx; simpl; [rewrite Hx, IH; reflexivity|exact IH].
Qed.

Lemma filter_all {X : Type} (keep : X -> bool) (xs : list X) :
  List.filter keep xs = xs <-> forall x, x ∈ xs -> keep x = true.
Proof.
  induction xs as [|x xs IH]; simpl.
  - split; [intros _ x Hx; apply elem_of_nil in Hx as []|reflexivity].
  - destruct (keep x) eqn:Hx.
    + split.
      * intros [= Heq] y Hy. apply elem_of_cons in Hy as [->|Hy];
          [exact Hx|apply IH; assumption].
      * intros Hall. f_equal. apply IH. intros y Hy. apply Hall. right. exact Hy.
    + split.
      * intros Heq. exfalso.
        pose proof (filter_sublist_of keep xs) as Hsub.
        apply sublist_length in Hsub. rewrite Heq in Hsub. simpl in Hsub. lia.
      * intros Hall. specialize (Hall x (list_elem_of_here x xs)). congruence.
Qed.

(** X13.  [get_variables_to_optimize] decides each variable on its own and
    keeps the order and the repetitions of [tf.trainable_variables()]: the
    result for a concatenation is the concatenation of the results, and the
    result is a sublist of the list it was given. *)
Theorem variables_to_optimize_in_order (self : Model.t T)
    (xs ys : list Model.variable) :
  Model.get_variables_to_optimize self (xs ++ ys) =
    (Model.get_variables_to_optimize self xs ++
     Model.get_variables_to_optimize self ys)%list /\
  Model.get_variables_to_optimize self xs `sublist_of` xs.
Proof.
  rewrite !variables_to_optimize_filter. split.
  - apply List.filter_app.
  - apply filter_sublist_of.
Qed.

(** X14.  Freezing is idempotent: the variables to optimize among the
    variables to optimize are all of them. *)
Theorem variables_to_optimize_idempotent (self : Model.t T)
    (all_trainables : list Model.variable) :
  Model.get_variables_to_optimize self
    (Model.get_variables_to_optimize self all_trainables) =
  Model.get_variables_to_optimize self all_trainables.
Proof. rewrite !variables_to_optimize_filter. apply filter_twice. Qed.

(** X15.  [get_variables_to_optimize] returns [tf.trainable_variables()]
    as it is exactly when none of its variables bears the name of a
    variable of a pretrained model; so it does whenever no loss has a
    [pretrained_model]. *)
Theorem variables_to_optimize_unchanged (self : Model.t T)
    (all_trainables : list Model.variable) :
  (Model.get_variables_to_optimize self all_trainables = all_trainables <->
   forall x, x ∈ all_trainables -> ~ frozen_name self (Model.var_name x)) /\
  ((forall l, l ∈ Model.losses self -> Model.pretrained_model l = None) ->
   Model.get_variables_to_optimize self all_trainables = all_trainables).
Proof.
  assert (Hiff : Model.get_variables_to_optimize self all_trainables = all_trainables <->
    forall x, x ∈ all_trainables -> ~ frozen_name self (Model.var_name x)).
  { rewrite variables_to_optimize_filter, filter_all.
    split; intros Hall x Hx; specialize (Hall x Hx).
    - rewrite <- frozen_names_spec.
      apply negb_true_iff, bool_decide_eq_false in Hall. exact Hall.
    - apply negb_true_iff, bool_decide_eq_false.
      rewrite frozen_names_spec. exact Hall. }
  split; [exact Hiff|].
  intros Hnone. apply Hiff. intros x _ (l & m & y & Hl & Hm & _).
  rewrite (Hnone l Hl) in Hm. discriminate.
Qed.
End Optimized.

(** ** Restoring, when it goes through *)

Section Restored.
Context {T : Type} `{TensorOps T}.

(** X16.  [Model.restore] returns exactly when there is a variable to
    optimize, [tf.train.latest_checkpoint] finds a checkpoint under the
    expanded directory, and reading it for the variables to optimize goes
    through; the session it leaves is the one that reading leaves. *)
Theorem restore_returns_iff {Session : Type} (env : Model.Env Session)
    (self : Model.t T) (all_trainables : list Model.variable)
    (sess sess' : Session) (checkpoint_dir : string) :
  Model.restore env self all_trainables sess checkpoint_dir = Ok sess' <->
  exists path,
    Model.get_variables_to_optimize self all_trainables <> [] /\
    Model.latest_checkpoint env
      (Model.expanduser env (Model.expandvars env checkpoint_dir)) = Some path /\
    Model.read_checkpoint env
      (Model.get_variables_to_optimize self all_trainables) sess path = Ok sess'.
Proof.
  unfold Model.restore.
  destruct (Model.get_variables_to_optimize self all_trainables) as [|v vs]; simpl.
  - split; [discriminate|]. intros (path & Hne & _). congruence.
  - destruct (Model.latest_checkpoint env _) as [path|]; simpl.
    + split.
      * intros Hread. exists path. repeat split; [discriminate|exact Hread].
      * intros (path' & _ & [= <-] & Hread). exact Hread.
    + split; [discriminate|]. intros (path & _ & Hnone & _). discriminate.
Qed.
End Restored.

(** ** The estimator hooks *)

Section Hooks.
Context {T : Type} `{TensorOps T}.

Lemma for_each_app {St X Acc : Type} (body : Acc -> X -> M St Acc)
    (xs ys : list X) (acc : Acc) (s : St) :
  Model.for_each body (xs ++ ys) acc s =
  match Model.for_each body xs acc s with
  | (Ok acc', s') => Model.for_each body ys acc' s'
  | (Err e, s') => (Err e, s')
  end.
Proof.
  revert acc s. induction xs as [|x xs IH]; intros acc s; simpl.
  - reflexivity.
  - unfold bind. destruct (body acc x s) as [[acc'|e] s']; [apply IH|reflexivity].
Qed.

Lemma for_each_recording (ms initialised : list Model.PretrainedModel) :
  Model.for_each (fun (_ : unit) m => recording_init m) ms tt initialised =
  (Ok tt, (initialised ++ ms)%list).
Proof.
  revert initialised. induction ms as [|m ms IH]; intros initialised; simpl.
  - rewrite app_nil_r. reflexivity.
  - unfold bind, recording_init. rewrite IH, <- app_assoc. reflexivity.
Qed.

(** X17.  The [scaffold_fn] of [get_scaffold_fn] calls
    [init_from_checkpoint] once for each loss that carries a pretrained
    model, in the order of the losses, and on nothing else, then returns
    the scaffold. *)
Theorem scaffold_fn_initialises_in_order {Scaffold : Type}
    (new_scaffold : Scaffold) (self : Model.t T)
    (initialised : list Model.PretrainedModel) :
  Estimator.get_scaffold_fn recording_init new_scaffold self initialised =
  (Ok new_scaffold,
   (initialised ++ omap Model.pretrained_model (Model.losses self))%list).
Proof.
  unfold Estimator.get_scaffold_fn, bind.
  rewrite for_each_recording, pretrained_models_omap. reflexivity.
Qed.

(** X18.  When [init_from_checkpoint] raises on a pretrained model, the
    [scaffold_fn] ends there with that error: the models after it are not
    initialised and no scaffold is returned. *)
Theorem scaffold_fn_stops_at_failure {St Scaffold : Type}
    (init_from_checkpoint : Model.PretrainedModel -> M St unit)
    (new_scaffold : Scaffold) (self : Model.t T)
    (before after : list Model.PretrainedModel) (m : Model.PretrainedModel)
    (s s1 s2 : St) (e : exn) :
  Model.pretrained_models self = (before ++ m :: after)%list ->
  Model.for_each (fun (_ : unit) m => init_from_checkpoint m) before tt s = (Ok tt, s1) ->
  init_from_checkpoint m s1 = (Err e, s2) ->
  Estimator.get_scaffold_fn init_from_checkpoint new_scaffold self s = (Err e, s2).
Proof.
  intros Hmodels Hbefore Hfail. unfold Estimator.get_scaffold_fn.
  unfold bind at 1. rewrite Hmodels, for_each_app, Hbefore, for_each_cons, Hfail.
  reflexivity.
Qed.

Context {St Scaffold Mode HostCallFn EstimatorSpec Labels Config : Type}.

(** X19.  When the forward pass goes through and [params] holds
    ['model_dir'], [model_fn] returns the estimator spec built from the
    total loss of this pass, the variables to optimize, and a host call
    that carries the metrics as this pass left them; [labels] and
    [config] play no part. *)
Theorem model_fn_returns
    (util : Estimator.train_util T St Scaffold Mode HostCallFn EstimatorSpec)
    (init_from_checkpoint : Model.PretrainedModel -> M St unit)
    (new_scaffold : Scaffold) (all_trainables : list Model.variable)
    (self : Model.t T) (use_tpu : bool)
    (features : gmap string (Model.value T)) (labels : Labels) (mode : Mode)
    (params : gmap string string) (config : Config)
    (tb_metrics : gmap string T)
    (dec : gmap string (Model.value T) -> gmap string (Model.value T))
    (group : Model.ProcessorGroup T) (audio audio_gen : Model.value T)
    (model_dir : string) :
  Model.decoder self = Some dec ->
  Model.processor_group self = Some group ->
  features !! "audio" = Some audio ->
  Model.lookup_signal
    (Model.pg_get_outputs group (dec (encoded self features true)))
    (Model.pg_name group) = Ok audio_gen ->
  params !! "model_dir" = Some model_dir ->
  let term := fun l => Model.loss_call l audio audio_gen in
  let tb_metrics' := register_metrics term (Model.losses self) tb_metrics in
  Estimator.get_model_fn util init_from_checkpoint new_scaffold all_trainables
      self use_tpu features labels mode params config tb_metrics =
    (Ok (Estimator.get_estimator_spec util
           (Model.VTensor (total_of term (Model.losses self)))
           mode model_dir use_tpu
           (Estimator.get_scaffold_fn init_from_checkpoint new_scaffold self)
           (Model.get_variables_to_optimize self all_trainables)
           (Estimator.get_host_call_fn util model_dir, tb_metrics')),
     tb_metrics').
Proof.
  intros Hdec Hgroup Haudio Hsignal Hdir term tb_metrics'.
  unfold Estimator.get_model_fn. unfold bind at 1.
  rewrite (get_outputs_run self features true tb_metrics dec group
             audio audio_gen Hdec Hgroup Haudio Hsignal).
  unfold bind, lift, Estimator.read_tb_metrics, Model.getitem.
  rewrite Hdir, lookup_insert_eq. reflexivity.
Qed.

(** X20.  When [params] holds no ['model_dir'], [model_fn] raises
    [KeyError] after the forward pass: the metrics of that pass are
    registered all the same. *)
Theorem model_fn_without_model_dir
    (util : Estimator.train_util T St Scaffold Mode HostCallFn EstimatorSpec)
    (init_from_checkpoint : Model.PretrainedModel -> M St unit)
    (new_scaffold : Scaffold) (all_trainables : list Model.variable)
    (self : Model.t T) (use_tpu : bool)
    (features : gmap string (Model.value T)) (labels : Labels) (mode : Mode)
    (params : gmap string string) (config : Config)
    (tb_metrics : gmap string T)
    (dec : gmap string (Model.value T) -> gmap string (Model.value T))
    (group : Model.ProcessorGroup T) (audio audio_gen : Model.value T) :
  Model.decoder self = Some dec ->
  Model.processor_group self = Some group ->
  features !! "audio" = Some audio ->
  Model.lookup_signal
    (Model.pg_get_outputs group (dec (encoded self features true)))
    (Model.pg_name group) = Ok audio_gen ->
  params !! "model_dir" = None ->
  let term := fun l => Model.loss_call l audio audio_gen in
  Estimator.get_model_fn util init_from_checkpoint new_scaffold all_trainables
      self use_tpu features labels mode params config tb_metrics =
    (Err KeyError, register_metrics term (Model.losses self) tb_metrics).
Proof.
  intros Hdec Hgroup Haudio Hsignal Hdir term.
  unfold Estimator.get_model_fn. unfold bind at 1.
  rewrite (get_outputs_run self features true tb_metrics dec group
             audio audio_gen Hdec Hgroup Haudio Hsignal).
  unfold bind, lift, Model.getitem. rewrite Hdir. reflexivity.
Qed.
End Hooks.

(** * Further instances *)

Section FurtherInstances.
Import Examples MoreExamples.

Lemma get_controls_keeps_shape_witness :
  exists a' h' out,
    Additive.scale (A := spec_float) additive_unscaled
      (one_frame [1]) (one_frame [1; 1]) tt = (Ok (a', h'), tt) /\
    controls (A := spec_float) (one_frame [1]) [[[of_int 1; fzero]]]
      (one_frame [5000]) !! "harmonic_distribution" = Some out /\
    (has_shape 1 1 2 h' = true -> has_shape 1 1 2 out = true).
Proof.
  apply (get_controls_keeps_shape additive_unscaled
           (one_frame [1]) (one_frame [1; 1]) (one_frame [5000]) tt tt).
  reflexivity.
Defined.

Lemma get_controls_ignores_f0_hz_witness :
  Additive.get_controls (A := spec_float) additive_unlimited
    (one_frame [1]) (one_frame [1; 1]) [] tt =
  (Ok (<["f0_hz" := []]>
         (controls (one_frame [1])
                   [[[fdiv (of_int 1) (of_int 2); fdiv (of_int 1) (of_int 2)]]]
                   (one_frame [10000]))), tt).
Proof.
  apply (get_controls_ignores_f0_hz additive_unlimited
           (one_frame [1]) (one_frame [1; 1]) (one_frame [10000]) [] tt tt);
    reflexivity.
Defined.


Lemma nan_spreads_over_frame_witness :
  exists a' h' pre out,
    Additive.scale (A := spec_float) additive_unscaled
      (one_frame [1]) [[[of_int 1; S754_nan]]] tt = (Ok (a', h'), tt) /\
    Additive.bandlimit additive_unscaled h' (one_frame [100]) = Ok pre /\
    controls (A := spec_float) (one_frame [1])
      [[[S754_nan; S754_nan]]] (one_frame [100])
      !! "harmonic_distribution" = Some out /\
    forall b t r,
      tframe pre b t = Some r -> S754_nan ∈ r ->
      tframe out b t = Some (replicate (length r) S754_nan).
Proof.
  apply (nan_spreads_over_frame additive_unscaled
           (one_frame [1]) [[[of_int 1; S754_nan]]] (one_frame [100]) tt tt).
  reflexivity.
Defined.


Lemma get_outputs_registers_metrics_witness :
  let self := model_with [spectral_loss 1; embedding_loss] in
  let term := fun l => Model.loss_call l (Model.VTensor 2) (Model.VTensor 7) in
  let metric := fun x : Z => t_expand_dims (t_reduce_mean x) in
  exists outputs tb_metrics',
    Model.get_outputs self features true (<["learning_rate" := 3]> ∅) =
      (Ok outputs, tb_metrics') /\
    tb_metrics' !! "loss" = Some (metric (total_of term (Model.losses self))) /\
    tb_metrics' !! "global_step" = Some (metric t_global_step) /\
    (forall i l, Model.losses self !! i = Some l ->
       (forall j l', (i < j)%nat -> Model.losses self !! j = Some l' ->
          Model.loss_name l' <> Model.loss_name l) ->
       tb_metrics' !! loss_key l = Some (metric (term l))) /\
    (forall k, k <> "loss" -> k <> "global_step" ->
       (forall l, l ∈ Model.losses self -> loss_key l <> k) ->
       tb_metrics' !! k = (<["learning_rate" := 3]> ∅ : gmap string Z) !! k).
Proof.
  intros self.
  apply (get_outputs_registers_metrics self features true
           (<["learning_rate" := 3]> ∅)
           (fun conditioning => conditioning) group
           (Model.VTensor 2) (Model.VTensor 7)); reflexivity.
Defined.

Lemma get_outputs_keeps_group_outputs_witness :
  let self := model_with [spectral_loss 1; embedding_loss] in
  exists outputs tb_metrics',
    Model.get_outputs self features true Model.init_tb_metrics =
      (Ok outputs, tb_metrics') /\
    forall k, k <> "audio_gen" -> k <> "total_loss" ->
      (forall l, l ∈ Model.losses self -> loss_key l <> k) ->
      outputs !! k =
        Model.pg_get_outputs group (encoded self features true) !! k.
Proof.
  intros self.
  apply (get_outputs_keeps_group_outputs self features true Model.init_tb_metrics
           (fun conditioning => conditioning) group
           (Model.VTensor 2) (Model.VTensor 7)); reflexivity.
Defined.


Lemma get_outputs_without_audio_witness :
  Model.get_outputs (model_of group None) ∅ true Model.init_tb_metrics =
    (Err KeyError, Model.init_tb_metrics).
Proof.
  apply (get_outputs_without_audio identity_preprocessor (spectral_loss 1)
           None None (fun conditioning => conditioning) group None
           ∅ true Model.init_tb_metrics (Model.VTensor 7)); reflexivity.
Defined.

Lemma get_outputs_without_signal_witness :
  let self := model_of flat_group None in
  let outputs := Model.pg_get_outputs flat_group (encoded self features true) in
  Model.get_outputs self features true Model.init_tb_metrics =
    (Err TypeError, Model.init_tb_metrics) /\
  (TypeError = KeyError \/ TypeError = TypeError) /\
  (TypeError = TypeError <->
   exists x, outputs !! Model.pg_name flat_group = Some (Model.VTensor x)).
Proof.
  intros self.
  apply (get_outputs_without_signal self features true Model.init_tb_metrics
           (fun conditioning => conditioning) flat_group TypeError); reflexivity.
Defined.

Lemma get_outputs_default_loss_witness :
  exists outputs tb_metrics',
    Model.get_outputs (model_of group (Some [])) features true
      Model.init_tb_metrics = (Ok outputs, tb_metrics') /\
    outputs !! "total_loss" = Some (Model.VTensor (0 + 5)) /\
    outputs !! "losses/spectral_loss" = Some (Model.VTensor 5).
Proof.
  exact (get_outputs_default_loss identity_preprocessor (spectral_loss 1)
           None None (fun conditioning => conditioning) group (Some [])
           features true Model.init_tb_metrics
           (Model.VTensor 2) (Model.VTensor 7)
           (or_intror eq_refl) eq_refl eq_refl).
Defined.

Lemma scaffold_fn_stops_at_failure_witness :
  Estimator.get_scaffold_fn counting_init tt
    (model_with [embedding_loss; hollow_loss; embedding_loss]) 0%nat =
  (Err ValueError, 1%nat).
Proof.
  apply (scaffold_fn_stops_at_failure counting_init tt
           (model_with [embedding_loss; hollow_loss; embedding_loss])
           [{| Model.trainable_variables := [embedding_variable] |}]
           [{| Model.trainable_variables := [embedding_variable] |}]
           hollow_model 0%nat 1%nat 1%nat ValueError); reflexivity.
Defined.

Lemma model_fn_returns_witness :
  let self := model_with [spectral_loss 1; embedding_loss] in
  Estimator.get_model_fn tuple_util counting_init tt
      [embedding_variable; decoder_variable] self true features tt "train"
      (<["model_dir" := "/tmp/ddsp"]> ∅) tt Model.init_tb_metrics =
    (Ok (Model.VTensor 20, "train", "/tmp/ddsp", true, [decoder_variable],
         ("/tmp/ddsp",
          register_metrics
            (fun l => Model.loss_call l (Model.VTensor 2) (Model.VTensor 7))
            (Model.losses self) Model.init_tb_metrics)),
     register_metrics
       (fun l => Model.loss_call l (Model.VTensor 2) (Model.VTensor 7))
       (Model.losses self) Model.init_tb_metrics).
Proof.
  intros self.
  exact (model_fn_returns tuple_util counting_init tt
           [embedding_variable; decoder_variable] self true features tt "train"
           (<["model_dir" := "/tmp/ddsp"]> ∅) tt Model.init_tb_metrics
           (fun conditioning => conditioning) group
           (Model.VTensor 2) (Model.VTensor 7) "/tmp/ddsp"
           eq_refl eq_refl eq_refl eq_refl eq_refl).
Defined.

Lemma model_fn_without_model_dir_witness :
  let self := model_with [spectral_loss 1; embedding_loss] in
  Estimator.get_model_fn tuple_util counting_init tt
      [embedding_variable; decoder_variable] self true features tt "train"
      ∅ tt Model.init_tb_metrics =
    (Err KeyError,
     register_metrics
       (fun l => Model.loss_call l (Model.VTensor 2) (Model.VTensor 7))
       (Model.losses self) Model.init_tb_metrics).
Proof.
  intros self.
  apply (model_fn_without_model_dir tuple_util counting_init tt
           [embedding_variable; decoder_variable] self true features tt "train"
           ∅ tt Model.init_tb_metrics
           (fun conditioning => conditioning) group
           (Model.VTensor 2) (Model.VTensor 7)); reflexivity.
Defined.
End FurtherInstances.
